(** * MedGuard dashboard: the dataset registry loader and its consumers

    A shallow embedding of [medguard_dashboard.py]: the method
    [MedGuardDashboard.load_data], which fills the name-keyed registry
    [self.datasets] from the files of the processed-data directory, and the
    rendering methods that look datasets up in it ([render_key_metrics], the
    [create_*] figure builders and the tabs of [run]).

    Conventions of the embedding.
    - Python exceptions are explicit: a computation ends in [Returned v] or
      in [Raised e], and the object state survives a raise, as it does in
      Python.  [try: ... except: ...] is [try_except].
    - [self.datasets] is a Python [dict]: an insertion-ordered association
      list in which assigning to a present key replaces its value in place.
    - xarray, geopandas, pandas, plotly and folium are outside the
      repository.  Their entry points are the fields of the classes
      [DataLibs] and [RenderLibs]; every theorem holds for every instance.
    - A Python [float] is [pyfloat]: the exact rational a finite double
      denotes, or an infinity, or NaN.  Only comparisons with literals are
      modelled, no floating-point arithmetic.
    - The source file is taken as it stands: the class body runs from
      [__init__] to [run], and [create_connectivity_network], whose [def]
      follows the call of [main()], is not a method of the class.
    - Streamlit output is the list [page] of widgets in emission order.
      Column and tab placement is not modelled; pictographs in the texts
      are left out of the string literals. *)

From Stdlib Require Import String Ascii List Bool Arith Lia QArith.
From ExtLib Require Import Structures.Monad.
Import ListNotations.
Import MonadNotation.

Local Close Scope Q_scope.
Local Open Scope string_scope.
Local Open Scope nat_scope.
Local Open Scope list_scope.
Local Open Scope monad_scope.

(* ------------------------------------------------------------------ *)
(** ** File names: [Path.glob] patterns and [Path.stem] *)

Module PyPath.

(** [fnmatch(name, "*" + suffix)]: the name ends with [suffix].  The star
    of a [pathlib] pattern also matches the empty string and a leading
    dot. *)
Fixpoint endswith (name suffix : string) : bool :=
  String.eqb name suffix
  || match name with
     | EmptyString => false
     | String _ rest => endswith rest suffix
     end.

(** [name.rfind('.')], [None] standing for Python's [-1]. *)
Fixpoint rfind_dot (name : string) : option nat :=
  match name with
  | EmptyString => None
  | String c rest =>
      match rfind_dot rest with
      | Some i => Some (S i)
      | None => if Ascii.eqb c "."%char then Some 0 else None
      end
  end.

(** [PurePath.stem]:
    [i = name.rfind('.'); name[:i] if 0 < i < len(name) - 1 else name]. *)
Definition stem (name : string) : string :=
  match rfind_dot name with
  | Some i =>
      if (0 <? i) && (i <? String.length name - 1)
      then substring 0 i name
      else name
  | None => name
  end.

(** A suffix of the shape [".xyz"]: one dot, first, then dot-free text. *)
Definition is_extension (ext : string) : Prop :=
  exists tail, ext = String "."%char tail
               /\ rfind_dot tail = None /\ tail <> EmptyString.

End PyPath.

(* ------------------------------------------------------------------ *)
(** ** Python dictionaries with string keys *)

Module PyDict.
Section Dict.
Context {V : Type}.

Definition dict := list (string * V).

(** [d[k]], [None] where Python raises [KeyError]. *)
Fixpoint get (k : string) (d : dict) : option V :=
  match d with
  | [] => None
  | (k', v) :: rest => if String.eqb k k' then Some v else get k rest
  end.

(** [k in d] *)
Definition contains (k : string) (d : dict) : bool :=
  match get k d with Some _ => true | None => false end.

(** [d[k] = v]: a present key keeps its place and takes the new value,
    a new key goes last. *)
Fixpoint set (k : string) (v : V) (d : dict) : dict :=
  match d with
  | [] => [(k, v)]
  | (k', v') :: rest =>
      if String.eqb k k' then (k', v) :: rest
      else (k', v') :: set k v rest
  end.

Definition keys (d : dict) : list string := map fst d.

(** How many entries the dictionary holds under [k]. *)
Definition entries_for (k : string) (d : dict) : nat :=
  List.length (filter (fun kv => String.eqb k (fst kv)) d).

End Dict.
Arguments dict : clear implicits.
End PyDict.

(* ------------------------------------------------------------------ *)
(** ** Exceptions and floats *)

Inductive exn : Type :=
| KeyError (key : string)
| TypeError (msg : string)
| LibraryError (msg : string)
| AttributeError (attribute : string).

Inductive outcome (A : Type) : Type :=
| Returned (a : A)
| Raised (e : exn).
Arguments Returned {A} a.
Arguments Raised {A} e.

Inductive pyfloat : Type :=
| Finite (q : Q)
| Infinity (negative : bool)
| NaN.

(** [x > y] on floats; every comparison with NaN is false. *)
Definition float_gt (x y : pyfloat) : bool :=
  match x, y with
  | NaN, _ | _, NaN => false
  | Finite a, Finite b => negb (Qle_bool a b)
  | Finite _, Infinity negative => negative
  | Infinity negative, Finite _ => negb negative
  | Infinity nx, Infinity ny => negb nx && ny
  end.

(** The doubles that the literals [0.8], [0.6] and [0.3] denote. *)
Definition lit_0_8 : pyfloat := Finite (3602879701896397 # 4503599627370496)%Q.
Definition lit_0_6 : pyfloat := Finite (5404319552844595 # 9007199254740992)%Q.
Definition lit_0_3 : pyfloat := Finite (5404319552844595 # 18014398509481984)%Q.
Definition lit_30 : pyfloat := Finite 30%Q.
Definition lit_15 : pyfloat := Finite 15%Q.

(* ------------------------------------------------------------------ *)
(** ** The processed-data directory *)

Record file : Type := File { name : string; content : string }.

(** What [Path('processed')] denotes on disk.  The entries of a directory
    come in the order in which the operating system lists them, the same
    for the three [glob] calls of one load.  [exists()] and [glob] are taken
    not to raise. *)
Inductive data_dir : Type :=
| Missing
| Directory (entries : list file).

Definition exists_ (dir : data_dir) : bool :=
  match dir with Missing => false | Directory _ => true end.

(** [dir.glob('*' + ext)] *)
Definition glob (dir : data_dir) (ext : string) : list file :=
  match dir with
  | Missing => []
  | Directory entries =>
      filter (fun f => PyPath.endswith (name f) ext) entries
  end.

Definition stem (f : file) : string := PyPath.stem (name f).

(* ------------------------------------------------------------------ *)
(** ** The data libraries and the values of the registry *)

(** [xr.open_dataset], [xr.open_dataarray], [gpd.read_file] and
    [pd.read_csv], each a function of the file it is given. *)
Class DataLibs : Type := {
  XrDataset : Type;
  XrDataArray : Type;
  GeoDataFrame : Type;
  DataFrame : Type;
  xr_open_dataset : file -> outcome XrDataset;
  xr_open_dataarray : file -> outcome XrDataArray;
  gpd_read_file : file -> outcome GeoDataFrame;
  pd_read_csv : file -> outcome DataFrame
}.

(** The Python objects the program handles as datasets. *)
Inductive pyobj `{DataLibs} : Type :=
| PyNone
| Dataset_ (d : XrDataset)
| DataArray_ (a : XrDataArray)
| GeoDataFrame_ (g : GeoDataFrame)
| DataFrame_ (t : DataFrame).

(** The four kinds of dataset of the data model. *)
Inductive variant : Type :=
| GriddedMultiVariable
| GriddedSingleVariable
| VectorFeatureCollection
| TabularRecordSet.

Definition variant_of `{DataLibs} (v : pyobj) : option variant :=
  match v with
  | PyNone => None
  | Dataset_ _ => Some GriddedMultiVariable
  | DataArray_ _ => Some GriddedSingleVariable
  | GeoDataFrame_ _ => Some VectorFeatureCollection
  | DataFrame_ _ => Some TabularRecordSet
  end.

(* ------------------------------------------------------------------ *)
(** ** Computations: state that survives exceptions *)

Definition py (S A : Type) : Type := S -> outcome A * S.

#[global] Instance Monad_py (S : Type) : Monad (py S) := {
  ret := fun A (a : A) (s : S) => (Returned a, s);
  bind := fun A B (c : py S A) (k : A -> py S B) (s : S) =>
            match c s with
            | (Returned a, s') => k a s'
            | (Raised e, s') => (Raised e, s')
            end
}.

(** [raise e] *)
Definition raise {S A : Type} (e : exn) : py S A := fun s => (Raised e, s).

(** The result of a call into a library, which touches no program state. *)
Definition call {S A : Type} (r : outcome A) : py S A := fun s => (r, s).

(** [try: body / except: handler], the bare [except] that catches
    everything. *)
Definition try_except {S A : Type} (body handler : py S A) : py S A :=
  fun s =>
    match body s with
    | (Returned a, s') => (Returned a, s')
    | (Raised _, s') => handler s'
    end.

(** [pass] *)
Definition pass {S : Type} : py S unit := ret tt.

(** [for x in xs: body] *)
Fixpoint for_each {S X : Type} (xs : list X) (body : X -> py S unit)
  : py S unit :=
  match xs with
  | [] => ret tt
  | x :: rest => body x ;; for_each rest body
  end.

(* ------------------------------------------------------------------ *)
(** ** The rendering libraries and the page *)

(** A size as the data explorer prints it. *)
Inductive size_text : Type :=
| Megabytes (nbytes : nat)
| Features (n : nat)
| Rows (n : nat).

(** The library computations of the rendering methods.  Each groups the
    library calls that one method makes on a dataset it found in the
    registry; any of them may raise. *)
Class RenderLibs `{DataLibs} : Type := {
  Figure : Type;
  FoliumMap : Type;
  Table : Type;
  (** [float(x.mean())] *)
  float_mean : pyobj -> outcome pyfloat;
  (** [len(x)] *)
  py_len : pyobj -> outcome nat;
  (** [x.nbytes] *)
  nbytes : pyobj -> outcome nat;
  (** the shares, in percent, of the cells below 0.3, in between, and from
      0.6 on *)
  risk_shares : pyobj -> outcome (pyfloat * pyfloat * pyfloat);
  (** the body of [create_risk_map_3d] below its guard, and so on *)
  risk_surface : pyobj -> outcome Figure;
  mpa_circles : pyobj -> outcome FoliumMap;
  socioeconomic_subplots : pyobj -> outcome Figure;
  habitat_scatter : pyobj -> outcome Figure;
  connectivity_density : pyobj -> outcome Figure;
  (** [suspects[[...]].style.background_gradient(...)] *)
  suspects_table : pyobj -> outcome Table
}.

(** The pieces of an f-string. *)
Inductive piece : Type :=
| Lit (s : string)
| Count (n : nat)
| Fixed (x : pyfloat) (digits : nat).

Definition fstring : Type := list piece.

Inductive widget `{RenderLibs} : Type :=
| Markdown (text : string)
| Card (title : string) (headline : fstring) (caption : string)
| Metric (label : string) (value : fstring) (delta : string)
| Info (text : string)
| Success (text : string)
| Warning (text : fstring)
| Error (text : string)
| Progress (percent : pyfloat) (text : fstring)
| PlotlyChart (fig : Figure)
| StFolium (m : FoliumMap)
| StyledDataframe (t : Table)
| DatasetInfo (rows : list (string * string * size_text))
| DownloadButton (label file_name : string).

(** A call that reads a file of the data directory. *)
Inductive read_call : Type :=
| OpenDataset (f : file)
| OpenDataArray (f : file)
| ReadFile (f : file)
| ReadCsv (f : file).

(** The slider of the policy simulator, the one control [run] reads. *)
Record controls : Type := Controls { mpa_expansion : nat }.

(* ------------------------------------------------------------------ *)
(** ** class MedGuardDashboard *)

Section Program.
Context {DL : DataLibs} {RL : RenderLibs}.

(** The object [self] with the two things the program does to the world
    around it: the files it has tried to read and the widgets it has put
    on the page. *)
Record session : Type := Session {
  datasets : PyDict.dict pyobj;
  reads : list read_call;
  page : list widget
}.

Definition fresh : session := Session [] [] [].

(** [self.datasets = d] *)
Definition assign_datasets (d : PyDict.dict pyobj) : py session unit :=
  fun s => (Returned tt, Session d (reads s) (page s)).

(** [self.datasets[k] = v] *)
Definition setitem (k : string) (v : pyobj) : py session unit :=
  fun s => (Returned tt, Session (PyDict.set k v (datasets s)) (reads s) (page s)).

(** [self.datasets[k]] *)
Definition getitem (k : string) : py session pyobj :=
  fun s =>
    match PyDict.get k (datasets s) with
    | Some v => (Returned v, s)
    | None => (Raised (KeyError k), s)
    end.

(** [k in self.datasets] *)
Definition has_key (k : string) : py session bool :=
  fun s => (Returned (PyDict.contains k (datasets s)), s).

(** A library call that opens a file: the attempt is recorded, then the
    call returns or raises. *)
Definition reading {A : Type} (c : read_call) (r : outcome A)
  : py session A :=
  fun s => (r, Session (datasets s) (reads s ++ [c]) (page s)).

(** A Streamlit call that shows a widget. *)
Definition st (w : widget) : py session unit :=
  fun s => (Returned tt, Session (datasets s) (reads s) (page s ++ [w])).

(** *** load_data *)

(** The body of [for nc_file in self.data_dir.glob('*.nc')]. *)
Definition load_nc (nc_file : file) : py session unit :=
  try_except
    (data <- reading (OpenDataset nc_file) (xr_open_dataset nc_file) ;;
     setitem (stem nc_file) (Dataset_ data))
    (try_except
       (data <- reading (OpenDataArray nc_file) (xr_open_dataarray nc_file) ;;
        setitem (stem nc_file) (DataArray_ data))
       pass).

(** The body of [for geojson_file in self.data_dir.glob('*.geojson')]. *)
Definition load_geojson (geojson_file : file) : py session unit :=
  try_except
    (data <- reading (ReadFile geojson_file) (gpd_read_file geojson_file) ;;
     setitem (stem geojson_file) (GeoDataFrame_ data))
    pass.

(** The body of [for csv_file in self.data_dir.glob('*.csv')]. *)
Definition load_csv (csv_file : file) : py session unit :=
  try_except
    (data <- reading (ReadCsv csv_file) (pd_read_csv csv_file) ;;
     setitem (stem csv_file) (DataFrame_ data))
    pass.

Definition load_data (data_dir : data_dir) : py session unit :=
  assign_datasets [] ;;
  if exists_ data_dir then
    for_each (glob data_dir ".nc") load_nc ;;
    for_each (glob data_dir ".geojson") load_geojson ;;
    for_each (glob data_dir ".csv") load_csv
  else
    ret tt.

(** [__init__], with the state of [Path('processed')] on disk. *)
Definition init (data_dir : data_dir) : py session unit :=
  load_data data_dir.

(** *** render_key_metrics *)

Definition risk_class (mean_risk : pyfloat) : string :=
  if float_gt mean_risk lit_0_6 then "CRITICAL"
  else if float_gt mean_risk lit_0_3 then "WARNING"
  else "SAFE".

(** The coloured disc in front of the figure, by its colour. *)
Definition risk_color (mean_risk : pyfloat) : string :=
  if float_gt mean_risk lit_0_6 then "red"
  else if float_gt mean_risk lit_0_3 then "yellow"
  else "green".

(** [with col1:] *)
Definition risk_metric : py session unit :=
  present <- has_key "overfishing_risk_index" ;;
  if (present : bool) then
    risk_data <- getitem "overfishing_risk_index" ;;
    mean_risk <- call (float_mean risk_data) ;;
    st (Card "Overfishing Risk Index"
             [Lit (risk_color mean_risk); Lit " "; Fixed mean_risk 2]
             (risk_class mean_risk))
  else
    st (Metric "Risk Index" [Lit "Loading..."] "").

(** [with col2:] *)
Definition habitat_metric : py session unit :=
  present <- has_key "habitat_quality_index" ;;
  if (present : bool) then
    habitat <- getitem "habitat_quality_index" ;;
    quality <- call (float_mean habitat) ;;
    st (Card "Habitat Quality" [Fixed quality 2] "OUT OF 1.0")
  else
    st (Metric "Habitat Quality" [Lit "N/A"] "").

(** [with col3:] *)
Definition connectivity_metric : py session unit :=
  present <- has_key "larval_connectivity" ;;
  if (present : bool) then
    connectivity <- getitem "larval_connectivity" ;;
    conn_score <- call (float_mean connectivity) ;;
    st (Card "Larval Connectivity" [Fixed conn_score 3] "NETWORK STRENGTH")
  else
    st (Metric "Connectivity" [Lit "N/A"] "").

(** The card shown when no suspects dataset is loaded: a tick and a
    literal zero. *)
Definition all_clear_card : widget :=
  Card "Illegal Activity Alerts" [Lit "0"] "ALL CLEAR".

(** [with col4:] *)
Definition alerts_metric : py session unit :=
  present <- has_key "illegal_fishing_suspects" ;;
  if (present : bool) then
    data <- getitem "illegal_fishing_suspects" ;;
    suspects <- call (py_len data) ;;
    st (Card "Illegal Activity Alerts" [Count suspects] "VESSELS FLAGGED")
  else
    st all_clear_card.

Definition render_key_metrics : py session unit :=
  st (Markdown "### Real-Time System Health") ;;
  risk_metric ;;
  habitat_metric ;;
  connectivity_metric ;;
  alerts_metric.

(** *** The figure builders

    Each returns [None] when its dataset is not in the registry, before
    it touches any library. *)

Definition create_figure {F : Type} (key : string)
    (build : pyobj -> outcome F) : py session (option F) :=
  present <- has_key key ;;
  if negb present then
    ret None
  else
    data <- getitem key ;;
    fig <- call (build data) ;;
    ret (Some fig).

Definition create_risk_map_3d : py session (option Figure) :=
  create_figure "overfishing_risk_index" risk_surface.

Definition create_mpa_optimization_map : py session (option FoliumMap) :=
  create_figure "recommended_mpa_locations" mpa_circles.

Definition create_socioeconomic_impact_chart : py session (option Figure) :=
  create_figure "socioeconomic_scenarios" socioeconomic_subplots.

Definition create_habitat_quality_animation : py session (option Figure) :=
  create_figure "habitat_quality_index" habitat_scatter.

(** The text of [create_connectivity_network].  In the source file this
    [def] does not stand in the class: the class body ends with [run], and
    the [def] follows the call of [main()] at the end of the file.  The
    class therefore has no attribute of this name, see [missing_method]. *)
Definition create_connectivity_network : py session (option Figure) :=
  create_figure "larval_connectivity" connectivity_density.

(** [self.<attribute>] for a name that neither the object nor its class
    defines: the lookup raises [AttributeError] before anything is
    called. *)
Definition missing_method {A : Type} (attribute : string) : py session A :=
  raise (AttributeError attribute).

(** *** run

    The header, the sidebar and the texts that [run] prints whatever the
    registry holds are left out; the sidebar's slider value comes in as
    [ctl], and its refresh button, which ends the script run through
    [st.rerun()], is taken as not pressed.  Texts of several lines are cut
    after their first line. *)

(** [if fig: st.plotly_chart(fig) else: st.info(text)] *)
Definition chart_or_info (fig : option Figure) (text : string)
  : py session unit :=
  match fig with
  | Some f => st (PlotlyChart f)
  | None => st (Info text)
  end.

(** [with tab1:] *)
Definition risk_tab : py session unit :=
  fig_3d <- create_risk_map_3d ;;
  chart_or_info fig_3d
    "Risk data is being processed. Please run the processing pipeline first." ;;
  present <- has_key "overfishing_risk_index" ;;
  if (present : bool) then
    risk_data <- getitem "overfishing_risk_index" ;;
    shares <- call (risk_shares risk_data) ;;
    let '(low_pct, med_pct, high_pct) := shares in
    st (Markdown "#### Current Status") ;;
    st (Progress low_pct [Lit "Low Risk: "; Fixed low_pct 1; Lit "%"]) ;;
    st (Progress med_pct [Lit "Medium Risk: "; Fixed med_pct 1; Lit "%"]) ;;
    st (Progress high_pct [Lit "High Risk: "; Fixed high_pct 1; Lit "%"]) ;;
    if float_gt high_pct lit_30 then
      st (Error "**ALERT**: High-risk areas exceed 30% threshold!")
    else if float_gt high_pct lit_15 then
      st (Warning [Lit "**WARNING**: Monitor high-risk areas closely"])
    else
      st (Success "Risk levels within acceptable range")
  else
    ret tt.

(** [with tab2:].  [self.create_connectivity_network()] names a method
    that the class does not have. *)
Definition connectivity_tab : py session unit :=
  fig_conn <- missing_method "create_connectivity_network" ;;
  chart_or_info fig_conn "Connectivity analysis in progress..." ;;
  fig_habitat <- create_habitat_quality_animation ;;
  chart_or_info fig_habitat "Habitat analysis in progress...".

(** [with tab3:] *)
Definition illegal_fishing_tab : py session unit :=
  present <- has_key "illegal_fishing_suspects" ;;
  if (present : bool) then
    suspects <- getitem "illegal_fishing_suspects" ;;
    n <- call (py_len suspects) ;;
    st (Warning [Lit "**"; Count n; Lit " suspicious clusters detected**"]) ;;
    t <- call (suspects_table suspects) ;;
    st (StyledDataframe t) ;;
    st (Markdown "**Recommended Actions:**")
  else
    st (Success
          "**All Clear**: No suspicious patterns detected in current period") ;;
    st (Info "**How the system works:**").

(** [with tab4:] *)
Definition mpa_tab (ctl : controls) : py session unit :=
  mpa_map <- create_mpa_optimization_map ;;
  match mpa_map with
  | Some m => st (StFolium m)
  | None => st (Info "MPA optimization map loading...")
  end ;;
  if 0 <? mpa_expansion ctl then
    st (Metric "Network Efficiency Gain"
          [Lit "+";
           Fixed (Finite (inject_Z (Z.of_nat (mpa_expansion ctl)) * (5 # 2))%Q) 1;
           Lit "%"] "") ;;
    st (Metric "New Protected Area"
          [Lit "+"; Count (mpa_expansion ctl * 650); Lit " km2"] "")
  else
    ret tt.

(** [with tab5:] *)
Definition socioeconomic_tab : py session unit :=
  fig_econ <- create_socioeconomic_impact_chart ;;
  chart_or_info fig_econ "Socioeconomic analysis loading...".

(** The [isinstance] chain of the data explorer. *)
Definition describe (data : pyobj) : py session (string * size_text) :=
  match data with
  | Dataset_ _ =>
      n <- call (nbytes data) ;; ret ("NetCDF (Gridded)", Megabytes n)
  | DataArray_ _ =>
      n <- call (nbytes data) ;; ret ("NetCDF (Array)", Megabytes n)
  | GeoDataFrame_ _ =>
      n <- call (py_len data) ;; ret ("GeoJSON (Vector)", Features n)
  | _ =>
      n <- call (py_len data) ;; ret ("CSV (Tabular)", Rows n)
  end.

(** [for name, data in self.datasets.items(): dataset_info.append(...)] *)
Fixpoint collect_info (items : list (string * pyobj))
  : py session (list (string * string * size_text)) :=
  match items with
  | [] => ret []
  | (key, data) :: rest =>
      d <- describe data ;;
      infos <- collect_info rest ;;
      ret ((key, fst d, snd d) :: infos)
  end.

(** [with tab6:] *)
Definition explorer_tab : py session unit :=
  fun s =>
    match datasets s with
    | [] =>
        st (Warning
              [Lit "No processed data found. Run the processing pipeline first."]) s
    | items =>
        (dataset_info <- collect_info items ;;
         st (DatasetInfo dataset_info) ;;
         st (Markdown "#### Export Options") ;;
         st (DownloadButton "Download Risk Data (NetCDF)"
               "medguard_risk_index.nc") ;;
         st (DownloadButton "Download MPA Recommendations (GeoJSON)"
               "recommended_mpas.geojson") ;;
         st (DownloadButton "Download Full Report (PDF)"
               "medguard_full_report.pdf")) s
    end.

Definition run (ctl : controls) : py session unit :=
  render_key_metrics ;;
  risk_tab ;;
  connectivity_tab ;;
  illegal_fishing_tab ;;
  mpa_tab ctl ;;
  socioeconomic_tab ;;
  explorer_tab.

(** *** What the loader does, file by file

    The result of the [try] chain of one loop body, as a value: the
    object the file puts into the registry, if any. *)

Definition parsed_nc (f : file) : option pyobj :=
  match xr_open_dataset f with
  | Returned d => Some (Dataset_ d)
  | Raised _ =>
      match xr_open_dataarray f with
      | Returned a => Some (DataArray_ a)
      | Raised _ => None
      end
  end.

Definition parsed_geojson (f : file) : option pyobj :=
  match gpd_read_file f with
  | Returned g => Some (GeoDataFrame_ g)
  | Raised _ => None
  end.

Definition parsed_csv (f : file) : option pyobj :=
  match pd_read_csv f with
  | Returned t => Some (DataFrame_ t)
  | Raised _ => None
  end.

End Program.

(* ------------------------------------------------------------------ *)
(** ** The three loops of the loader as one job list

    These definitions restate nothing of the loader: they name the files
    that its three [glob] calls yield and the outcome of its [try] chains,
    so that the theorems below can speak about them. *)

Inductive group : Type := Gridded | Vector | Tabular.

Definition extension (g : group) : string :=
  match g with
  | Gridded => ".nc"
  | Vector => ".geojson"
  | Tabular => ".csv"
  end.

(** The file is one that [glob('*' + extension g)] yields. *)
Definition in_group (g : group) (f : file) : bool :=
  PyPath.endswith (name f) (extension g).

(** The file has one of the three recognised extensions. *)
Definition recognized (f : file) : bool :=
  in_group Gridded f || in_group Vector f || in_group Tabular f.

(** The place of a group in the order of the loops. *)
Definition rank (g : group) : nat :=
  match g with Gridded => 0 | Vector => 1 | Tabular => 2 end.

(** The kinds of dataset that the loop of a group stores. *)
Definition variants_of_group (g : group) : list variant :=
  match g with
  | Gridded => [GriddedMultiVariable; GriddedSingleVariable]
  | Vector => [VectorFeatureCollection]
  | Tabular => [TabularRecordSet]
  end.

(** The directory is missing, or none of its entries has a recognised
    extension. *)
Definition nothing_recognized (dir : data_dir) : bool :=
  match dir with
  | Missing => true
  | Directory entries => forallb (fun f => negb (recognized f)) entries
  end.

(** No two entries of the listing have the same name. *)
Fixpoint distinct_names (entries : list file) : bool :=
  match entries with
  | [] => true
  | f :: rest =>
      negb (existsb (fun g => String.eqb (name g) (name f)) rest)
      && distinct_names rest
  end.

Section Jobs.
Context {DL : DataLibs}.

Definition parsed (g : group) (f : file) : option pyobj :=
  match g with
  | Gridded => parsed_nc f
  | Vector => parsed_geojson f
  | Tabular => parsed_csv f
  end.

(** Some loop of the loader stores an object for the file. *)
Definition loads (f : file) : bool :=
  existsb
    (fun g => in_group g f
              && match parsed g f with Some _ => true | None => false end)
    [Gridded; Vector; Tabular].

Definition jobs_of (g : group) (entries : list file) : list (group * file) :=
  map (pair g) (filter (in_group g) entries).

(** The loop bodies in the order in which [load_data] runs them. *)
Definition schedule (entries : list file) : list (group * file) :=
  jobs_of Gridded entries ++ jobs_of Vector entries ++ jobs_of Tabular entries.

(** The effect of one loop body on the registry. *)
Definition store (d : PyDict.dict pyobj) (job : group * file)
  : PyDict.dict pyobj :=
  match parsed (fst job) (snd job) with
  | Some v => PyDict.set (stem (snd job)) v d
  | None => d
  end.

(** The read calls of one loop body. *)
Definition attempts (job : group * file) : list read_call :=
  match fst job with
  | Gridded =>
      OpenDataset (snd job)
      :: match xr_open_dataset (snd job) with
         | Returned _ => []
         | Raised _ => [OpenDataArray (snd job)]
         end
  | Vector => [ReadFile (snd job)]
  | Tabular => [ReadCsv (snd job)]
  end.

(** A job that stores an object. *)
Definition effective (job : group * file) : bool :=
  match parsed (fst job) (snd job) with Some _ => true | None => false end.

(** A later file of group [g] with stem [k] that parses takes the place
    of what came before. *)
Definition later (g : group) (k : string) (acc : option pyobj) (f : file)
  : option pyobj :=
  if in_group g f && String.eqb (stem f) k then
    match parsed g f with Some v => Some v | None => acc end
  else acc.

(** Among the files of group [g] with stem [k], the object of the last
    one in listing order that parses. *)
Definition winner (g : group) (k : string) (entries : list file)
  : option pyobj :=
  fold_left (later g k) entries None.

(** The loop body that [load_data] runs on the files of a group. *)
Definition body_of `{!RenderLibs} (g : group) : file -> py session unit :=
  match g with
  | Gridded => load_nc
  | Vector => load_geojson
  | Tabular => load_csv
  end.

(** The registry that [load_data] leaves behind. *)
Definition registry `{!RenderLibs} (dir : data_dir) (s : session)
  : PyDict.dict pyobj :=
  datasets (snd (load_data dir s)).

End Jobs.

(** A computation that leaves the registry and the read log alone and only
    adds widgets to the page, whether it returns or raises. *)
Definition only_shows `{RenderLibs} {A : Type} (c : py session A) : Prop :=
  forall s, datasets (snd (c s)) = datasets s
            /\ reads (snd (c s)) = reads s
            /\ exists shown, page (snd (c s)) = page s ++ shown.

(** The session after some widgets have been shown. *)
Definition shows `{RenderLibs} (s : session) (ws : list widget) : session :=
  Session (datasets s) (reads s) (page s ++ ws).

(** Blocks of [render_key_metrics] and of [run] with the dataset name each
    one looks up. *)
Definition consumers `{RenderLibs} : list (string * py session unit) :=
  [("overfishing_risk_index", risk_metric);
   ("habitat_quality_index", habitat_metric);
   ("larval_connectivity", connectivity_metric);
   ("illegal_fishing_suspects", alerts_metric);
   ("overfishing_risk_index", risk_tab);
   ("illegal_fishing_suspects", illegal_fishing_tab);
   ("socioeconomic_scenarios", socioeconomic_tab)].

(** The two metrics of the policy simulator in the fourth tab. *)
Definition simulator_metrics `{RenderLibs} (ctl : controls) : list widget :=
  if 0 <? mpa_expansion ctl then
    [Metric "Network Efficiency Gain"
       [Lit "+";
        Fixed (Finite (inject_Z (Z.of_nat (mpa_expansion ctl)) * (5 # 2))%Q) 1;
        Lit "%"] "";
     Metric "New Protected Area"
       [Lit "+"; Count (mpa_expansion ctl * 650); Lit " km2"] ""]
  else [].

(** The card of [n] flagged vessels. *)
Definition alerts_card `{RenderLibs} (n : nat) : widget :=
  Card "Illegal Activity Alerts" [Count n] "VESSELS FLAGGED".

(** A widget that only says that data is not there yet: a metric whose
    value is ["Loading..."] or ["N/A"], or an info note. *)
Definition placeholder `{RenderLibs} (w : widget) : bool :=
  match w with
  | Metric _ [Lit v] _ => String.eqb v "Loading..." || String.eqb v "N/A"
  | Info _ => true
  | _ => false
  end.

(* ------------------------------------------------------------------ *)
(** ** Vocabulary for the further properties *)

(** The file that a read call opens. *)
Definition file_of (c : read_call) : file :=
  match c with
  | OpenDataset f | OpenDataArray f | ReadFile f | ReadCsv f => f
  end.

(** The loop of the loader that makes a read call. *)
Definition group_of_call (c : read_call) : group :=
  match c with
  | OpenDataset _ | OpenDataArray _ => Gridded
  | ReadFile _ => Vector
  | ReadCsv _ => Tabular
  end.

(** The call with which the loop of a group starts on a file. *)
Definition first_call (g : group) (f : file) : read_call :=
  match g with
  | Gridded => OpenDataset f
  | Vector => ReadFile f
  | Tabular => ReadCsv f
  end.

(** The order of keys under dict assignment: a new key goes last, a known
    key stays where it is. *)
Definition add_key (acc : list string) (k : string) : list string :=
  if existsb (String.eqb k) acc then acc else acc ++ [k].

(** The type column of the data explorer, by kind of dataset. *)
Definition type_label (var : variant) : string :=
  match var with
  | GriddedMultiVariable => "NetCDF (Gridded)"
  | GriddedSingleVariable => "NetCDF (Array)"
  | VectorFeatureCollection => "GeoJSON (Vector)"
  | TabularRecordSet => "CSV (Tabular)"
  end.

(** Some library computation of the rendering methods raises [e] on the
    object [v]. *)
Definition lib_raises `{RenderLibs} (v : pyobj) (e : exn) : Prop :=
  float_mean v = Raised e \/ py_len v = Raised e \/ nbytes v = Raised e
  \/ risk_shares v = Raised e \/ risk_surface v = Raised e
  \/ mpa_circles v = Raised e \/ socioeconomic_subplots v = Raised e
  \/ habitat_scatter v = Raised e \/ connectivity_density v = Raised e
  \/ suspects_table v = Raised e.

(** Whenever the computation raises, the exception is one that a library
    raised on an object of the registry. *)
Definition blames_library `{RenderLibs} {A : Type} (c : py session A) : Prop :=
  forall s e,
    fst (c s) = Raised e ->
    exists k v, In (k, v) (datasets s) /\ lib_raises v e.

(** What [run] shows when the registry is empty, up to the point where
    the connectivity tab fails. *)
Definition empty_dashboard `{RenderLibs} : list widget :=
  [Markdown "### Real-Time System Health";
   Metric "Risk Index" [Lit "Loading..."] "";
   Metric "Habitat Quality" [Lit "N/A"] "";
   Metric "Connectivity" [Lit "N/A"] "";
   all_clear_card;
   Info "Risk data is being processed. Please run the processing pipeline first."].

(** A row of the data explorer describes an entry of the registry: the
    entry's key, the label of its kind, and its size as the library gives
    it, in bytes for grids and in features or rows for frames. *)
Definition row_describes `{RenderLibs} (kv : string * pyobj)
    (row : string * string * size_text) : Prop :=
  fst (fst row) = fst kv
  /\ exists var,
      variant_of (snd kv) = Some var
      /\ snd (fst row) = type_label var
      /\ match snd row with
         | Megabytes n =>
             nbytes (snd kv) = Returned n
             /\ (var = GriddedMultiVariable \/ var = GriddedSingleVariable)
         | Features n =>
             py_len (snd kv) = Returned n /\ var = VectorFeatureCollection
         | Rows n =>
             py_len (snd kv) = Returned n /\ var = TabularRecordSet
         end.

(** Whenever the computation raises, a library raised that exception on
    the object [v]. *)
Definition raises_only_for `{RenderLibs} {A : Type} (v : pyobj)
    (c : py session A) : Prop :=
  forall s e, fst (c s) = Raised e -> lib_raises v e.

(** The dataset under [key] is missing, or the library computation [op]
    returns on it. *)
Definition usable `{RenderLibs} {A : Type} (key : string)
    (op : pyobj -> outcome A) (s : session) : bool :=
  match PyDict.get key (datasets s) with
  | None => true
  | Some v => match op v with Returned _ => true | Raised _ => false end
  end.

(* ------------------------------------------------------------------ *)
(** ** A small instance of the libraries

    Grids are constant and stand for their value, frames stand for their
    number of rows.  A file parses according to its content. *)

Module Sample.

Definition grid_of (text : string) : outcome pyfloat :=
  if String.eqb text "0.8" then Returned lit_0_8
  else if String.eqb text "0.1" then Returned (Finite (1 # 10)%Q)
  else Raised (LibraryError "not a netCDF file").

Definition rows_of (text : string) : outcome nat :=
  if String.eqb text "1 row" then Returned 1
  else if String.eqb text "2 rows" then Returned 2
  else if String.eqb text "3 rows" then Returned 3
  else Raised (LibraryError "no rows to parse").

(** A grid has a single variable and stands for its constant value.
    [open_dataarray] goes through [open_dataset], as it does in xarray: it
    opens a file exactly when [open_dataset] opens it, so that the loader,
    which tries [open_dataset] first, stores every grid as a data set. *)
#[local] Instance data : DataLibs := {
  XrDataset := pyfloat;
  XrDataArray := pyfloat;
  GeoDataFrame := nat;
  DataFrame := nat;
  xr_open_dataset := fun f => grid_of (content f);
  xr_open_dataarray := fun f => grid_of (content f);
  gpd_read_file := fun f => rows_of (content f);
  pd_read_csv := fun f => rows_of (content f)
}.

(** [float()] of a data set or a frame is a type error; of an array it is
    the array's value. *)
#[local] Instance render : RenderLibs := {
  Figure := string;
  FoliumMap := string;
  Table := string;
  float_mean := fun v =>
    match v with
    | DataArray_ x => Returned x
    | _ => Raised (TypeError "float() argument must be a real number")
    end;
  py_len := fun v =>
    match v with
    | GeoDataFrame_ n | DataFrame_ n => Returned n
    | Dataset_ _ => Returned 1
    | _ => Raised (TypeError "object has no len()")
    end;
  nbytes := fun v =>
    match v with
    | Dataset_ _ | DataArray_ _ => Returned 8
    | _ => Raised (TypeError "no attribute nbytes")
    end;
  risk_shares := fun v =>
    match v with
    | DataArray_ x =>
        if float_gt lit_0_6 x
        then Returned (Finite 100%Q, Finite 0%Q, Finite 0%Q)
        else Returned (Finite 0%Q, Finite 0%Q, Finite 100%Q)
    | _ => Raised (TypeError "not an array")
    end;
  risk_surface := fun _ => Returned "surface";
  mpa_circles := fun _ => Returned "map";
  socioeconomic_subplots := fun _ => Returned "subplots";
  habitat_scatter := fun _ => Returned "scatter";
  connectivity_density := fun _ => Returned "density";
  suspects_table := fun _ => Returned "table"
}.

Definition garbage : string := "malformed text".

(** A broken grid next to a good table of the same stem. *)
Definition broken_grid_good_table : list file :=
  [File "x.nc" garbage; File "x.csv" "1 row"].

(** Two files of one stem, neither of which parses. *)
Definition both_broken : list file :=
  [File "x.nc" garbage; File "x.csv" garbage].

(** One stem under all three extensions, every file good. *)
Definition three_of_a_stem : list file :=
  [File "zones.csv" "3 rows"; File "zones.nc" "0.1";
   File "zones.geojson" "2 rows"; File "readme.txt" "hello"].

(** The risk grid alone, of constant value 0.8. *)
Definition risk_only : list file :=
  [File "overfishing_risk_index.nc" "0.8"].

(** The risk grid and a table of the same stem. *)
Definition risk_and_table : list file :=
  [File "overfishing_risk_index.nc" "0.8";
   File "overfishing_risk_index.csv" "2 rows"].


(** Nothing the loader recognises. *)
Definition unrecognized_only : list file :=
  [File "notes.txt" "hello"; File "grid.NC" "0.8"; File "csv" "1 row"].

End Sample.

(* ------------------------------------------------------------------ *)
(** ** Facts about file names *)

Module PyPathFacts.
Import PyPath.

Lemma endswith_refl : forall s, endswith s s = true.
Proof.
  intros s. destruct s; simpl; [reflexivity|].
  rewrite Ascii.eqb_refl, String.eqb_refl. reflexivity.
Qed.

Lemma endswith_app : forall p suffix, endswith (p ++ suffix)%string suffix = true.
Proof.
  induction p as [|c p IH]; intros suffix; simpl.
  - apply endswith_refl.
  - simpl in IH. rewrite IH. apply orb_true_r.
Qed.

Lemma endswith_inv : forall s suffix,
    endswith s suffix = true -> exists p, s = (p ++ suffix)%string.
Proof.
  induction s as [|c s IH]; intros suffix H.
  - cbn [endswith] in H. rewrite orb_false_r in H. apply String.eqb_eq in H.
    exists EmptyString. subst. reflexivity.
  - cbn [endswith] in H. apply orb_true_iff in H. destruct H as [H|H].
    + apply String.eqb_eq in H. exists EmptyString. subst. reflexivity.
    + destruct (IH _ H) as [p Hp]. exists (String c p). subst. reflexivity.
Qed.

Lemma rfind_dot_app : forall p tail,
    rfind_dot tail = None ->
    rfind_dot (p ++ String "."%char tail)%string = Some (String.length p).
Proof.
  induction p as [|c p IH]; intros tail H; simpl.
  - rewrite H. reflexivity.
  - simpl in IH. rewrite (IH _ H). reflexivity.
Qed.

Lemma substring_prefix : forall p q, substring 0 (String.length p) (p ++ q)%string = p.
Proof.
  induction p as [|c p IH]; intros q; simpl.
  - destruct q; reflexivity.
  - rewrite IH. reflexivity.
Qed.

Lemma length_app : forall p q,
    String.length (p ++ q)%string = String.length p + String.length q.
Proof. induction p; intros; simpl; auto. Qed.

(** The stem of a globbed name: the text before the extension, or the
    whole name when nothing stands before it. *)
Lemma stem_app : forall p ext,
    is_extension ext ->
    stem (p ++ ext)%string = match p with EmptyString => ext | _ => p end.
Proof.
  intros p ext (tail & -> & Hdot & Hne). unfold stem.
  rewrite (rfind_dot_app p tail Hdot), length_app. simpl String.length.
  destruct p as [|c p].
  - reflexivity.
  - destruct tail as [|t tail]; [congruence|].
    replace (0 <? String.length (String c p)) with true
      by (symmetry; apply Nat.ltb_lt; simpl; lia).
    replace (String.length (String c p) <?
             String.length (String c p) + S (String.length (String t tail)) - 1)
      with true by (symmetry; apply Nat.ltb_lt; simpl; lia).
    simpl andb. cbv iota. apply substring_prefix.
Qed.

(** A globbed name is recovered from its stem, unless the stem is the
    bare extension. *)
Lemma name_of_stem : forall nm ext k,
    is_extension ext -> endswith nm ext = true ->
    stem nm = k -> k <> ext -> nm = (k ++ ext)%string.
Proof.
  intros nm ext k Hext Hend Hstem Hk.
  destruct (endswith_inv _ _ Hend) as [p ->].
  rewrite (stem_app p ext Hext) in Hstem.
  destruct p; [congruence|]. subst. reflexivity.
Qed.

Lemma nc_is_extension : is_extension ".nc".
Proof. exists "nc". repeat split; discriminate. Qed.

Lemma geojson_is_extension : is_extension ".geojson".
Proof. exists "geojson". repeat split; discriminate. Qed.

Lemma csv_is_extension : is_extension ".csv".
Proof. exists "csv". repeat split; discriminate. Qed.

End PyPathFacts.

(* ------------------------------------------------------------------ *)
(** ** Facts about dictionaries *)

Module PyDictFacts.
Import PyDict.
Section Dict.
Context {V : Type}.
Implicit Types (d : dict V) (k : string) (v : V).

Lemma get_set : forall d k k' v,
    get k (set k' v d) = if String.eqb k k' then Some v else get k d.
Proof.
  induction d as [|[k0 v0] d IH]; intros k k' v; simpl.
  - reflexivity.
  - destruct (String.eqb_spec k' k0) as [->|Hne]; simpl.
    + destruct (String.eqb k k0); reflexivity.
    + rewrite IH. destruct (String.eqb_spec k k0) as [->|Hk].
      * destruct (String.eqb_spec k0 k'); [congruence|reflexivity].
      * reflexivity.
Qed.

Lemma keys_set : forall d k v,
    keys (set k v d) = if contains k d then keys d else keys d ++ [k].
Proof.
  unfold contains.
  induction d as [|[k0 v0] d IH]; intros k v; simpl.
  - reflexivity.
  - destruct (String.eqb_spec k k0) as [->|Hne]; simpl.
    + reflexivity.
    + rewrite IH. destruct (get k d); reflexivity.
Qed.

Lemma contains_In : forall d k, contains k d = true <-> In k (keys d).
Proof.
  unfold contains.
  induction d as [|[k0 v0] d IH]; intros k; simpl.
  - split; [discriminate|tauto].
  - destruct (String.eqb_spec k k0) as [->|Hne].
    + split; auto.
    + rewrite IH. split; [auto|]. intros [H|H]; [congruence|assumption].
Qed.

(** Assignment never makes a key occur twice. *)
Lemma NoDup_set : forall d k v, NoDup (keys d) -> NoDup (keys (set k v d)).
Proof.
  intros d k v H. rewrite keys_set.
  destruct (contains k d) eqn:E; [assumption|].
  apply NoDup_app; [assumption | repeat constructor; simpl; tauto |].
  intros x Hx [<-|[]]. apply contains_In in Hx. congruence.
Qed.

Lemma entries_for_absent : forall d k,
    ~ In k (keys d) -> entries_for k d = 0.
Proof.
  unfold entries_for.
  induction d as [|[k0 v0] d IH]; intros k H; simpl in *.
  - reflexivity.
  - destruct (String.eqb_spec k k0) as [->|Hne]; [tauto|]. apply IH. tauto.
Qed.

(** Without repeated keys, a key has one entry or none. *)
Lemma entries_for_NoDup : forall d k,
    NoDup (keys d) ->
    entries_for k d = if contains k d then 1 else 0.
Proof.
  induction d as [|[k0 v0] d IH]; intros k H.
  - reflexivity.
  - inversion H as [|? ? Hnotin Hnd]; subst.
    unfold entries_for, contains in *. simpl.
    destruct (String.eqb_spec k k0) as [->|Hne]; simpl.
    + f_equal. apply (entries_for_absent d k0 Hnotin).
    + apply IH. assumption.
Qed.

End Dict.
End PyDictFacts.

(* ------------------------------------------------------------------ *)
(** ** What [load_data] computes *)

Section LoaderFacts.
Context {DL : DataLibs} {RL : RenderLibs}.
Implicit Types (s : session) (f : file) (g : group).

(** Every loop body returns normally, whatever the library calls do. *)
Lemma body_run : forall g f s,
    body_of g f s
    = (Returned tt,
       Session (store (datasets s) (g, f))
               (reads s ++ attempts (g, f)) (page s)).
Proof.
  intros g f s. destruct g; unfold store, attempts; simpl.
  - unfold load_nc, try_except, reading, setitem, pass, parsed_nc; simpl.
    destruct (xr_open_dataset f); simpl; [reflexivity|].
    destruct (xr_open_dataarray f); simpl; rewrite <- app_assoc; reflexivity.
  - unfold load_geojson, try_except, reading, setitem, pass, parsed_geojson; simpl.
    destruct (gpd_read_file f); reflexivity.
  - unfold load_csv, try_except, reading, setitem, pass, parsed_csv; simpl.
    destruct (pd_read_csv f); reflexivity.
Qed.

Lemma for_each_run : forall g files s,
    for_each files (body_of g) s
    = (Returned tt,
       Session (fold_left store (map (pair g) files) (datasets s))
               (reads s ++ flat_map attempts (map (pair g) files))
               (page s)).
Proof.
  intros g files. induction files as [|f files IH]; intros s.
  - simpl. rewrite app_nil_r. destruct s; reflexivity.
  - cbn [for_each]. unfold bind; cbn [Monad_py].
    rewrite body_run, IH. cbn [datasets reads page map fold_left flat_map].
    rewrite <- app_assoc. reflexivity.
Qed.

(** [load_data] over a directory: it returns, the registry is the job
    list folded from the empty dictionary, the reads are those of the
    jobs in order, the page is untouched. *)
Lemma load_data_run : forall entries s,
    load_data (Directory entries) s
    = (Returned tt,
       Session (fold_left store (schedule entries) [])
               (reads s ++ flat_map attempts (schedule entries))
               (page s)).
Proof.
  intros entries s. unfold load_data, schedule, jobs_of, assign_datasets.
  cbn [exists_ glob]. unfold bind; cbn [Monad_py].
  change (for_each ?l load_nc) with (for_each l (body_of Gridded)).
  change (for_each ?l load_geojson) with (for_each l (body_of Vector)).
  change (for_each ?l load_csv) with (for_each l (body_of Tabular)).
  rewrite !for_each_run. cbn [datasets reads page].
  rewrite !fold_left_app, !flat_map_app, <- !app_assoc. reflexivity.
Qed.

Lemma load_data_missing : forall s,
    load_data Missing s = (Returned tt, Session [] (reads s) (page s)).
Proof. reflexivity. Qed.

(** [load_data] returns normally on every directory state. *)
Lemma load_data_returns : forall dir s, fst (load_data dir s) = Returned tt.
Proof.
  intros [|entries] s; [reflexivity|]. rewrite load_data_run. reflexivity.
Qed.

Lemma registry_directory : forall entries s,
    registry (Directory entries) s = fold_left store (schedule entries) [].
Proof. intros. unfold registry. rewrite load_data_run. reflexivity. Qed.

End LoaderFacts.

(* ------------------------------------------------------------------ *)
(** ** What the registry holds *)

Section RegistryFacts.
Context {DL : DataLibs}.
Implicit Types (f : file) (g : group) (k : string) (v : pyobj)
         (d : PyDict.dict pyobj).

Lemma get_store : forall d job k,
    PyDict.get k (store d job)
    = if String.eqb k (stem (snd job)) then
        match parsed (fst job) (snd job) with
        | Some v => Some v
        | None => PyDict.get k d
        end
      else PyDict.get k d.
Proof.
  intros d job k. unfold store.
  destruct (parsed (fst job) (snd job)).
  - apply PyDictFacts.get_set.
  - destruct (String.eqb k (stem (snd job))); reflexivity.
Qed.

Lemma later_fold_acc : forall g k entries acc,
    fold_left (later g k) entries acc
    = match fold_left (later g k) entries None with
      | Some v => Some v
      | None => acc
      end.
Proof.
  intros g k entries. induction entries as [|f entries IH]; intros acc.
  - reflexivity.
  - cbn [fold_left]. rewrite IH. rewrite (IH (later g k None f)).
    destruct (fold_left (later g k) entries None); [reflexivity|].
    unfold later. destruct (in_group g f && String.eqb (stem f) k);
      [destruct (parsed g f)|]; reflexivity.
Qed.

Lemma get_fold_jobs : forall g k entries d,
    PyDict.get k (fold_left store (jobs_of g entries) d)
    = match winner g k entries with
      | Some v => Some v
      | None => PyDict.get k d
      end.
Proof.
  intros g k entries. unfold winner.
  induction entries as [|f entries IH]; intros d.
  - reflexivity.
  - unfold jobs_of in *. cbn [filter fold_left].
    rewrite (later_fold_acc g k entries (later g k None f)).
    unfold later at 2. destruct (in_group g f) eqn:Hg; cbn [andb map fold_left].
    + rewrite IH, get_store. cbn [fst snd].
      rewrite (String.eqb_sym k (stem f)).
      destruct (fold_left (later g k) entries None); [reflexivity|].
      destruct (String.eqb (stem f) k); [destruct (parsed g f)|]; reflexivity.
    + rewrite IH. destruct (fold_left (later g k) entries None); reflexivity.
Qed.

(** Last successful load wins, the groups in the loader's order. *)
Lemma get_schedule : forall k entries,
    PyDict.get k (fold_left store (schedule entries) [])
    = match winner Tabular k entries with
      | Some v => Some v
      | None =>
          match winner Vector k entries with
          | Some v => Some v
          | None => winner Gridded k entries
          end
      end.
Proof.
  intros k entries. unfold schedule. rewrite !fold_left_app, !get_fold_jobs.
  cbn [PyDict.get].
  destruct (winner Tabular k entries), (winner Vector k entries),
    (winner Gridded k entries); reflexivity.
Qed.

Lemma winner_none : forall g k entries,
    (forall f, In f entries -> in_group g f = true -> stem f = k ->
               parsed g f = None) ->
    winner g k entries = None.
Proof.
  intros g k entries. unfold winner.
  induction entries as [|f entries IH]; intros H; [reflexivity|].
  cbn [fold_left]. rewrite later_fold_acc, IH by (intros; apply H; simpl; auto).
  unfold later. destruct (in_group g f) eqn:Hg; [|reflexivity].
  destruct (String.eqb_spec (stem f) k) as [Hk|Hk]; [|reflexivity].
  cbn [andb]. rewrite (H f); simpl; auto.
Qed.

Lemma winner_some_inv : forall g k entries v,
    winner g k entries = Some v ->
    exists f, In f entries /\ in_group g f = true /\ stem f = k
              /\ parsed g f = Some v.
Proof.
  intros g k entries v. unfold winner.
  induction entries as [|f entries IH]; [discriminate|].
  cbn [fold_left]. rewrite later_fold_acc.
  destruct (fold_left (later g k) entries None) as [w|] eqn:E.
  - intros [= ->]. destruct (IH eq_refl) as (f' & ? & ?).
    exists f'. simpl; auto.
  - unfold later. destruct (in_group g f) eqn:Hg; [|discriminate].
    destruct (String.eqb_spec (stem f) k) as [Hk|Hk]; [|discriminate].
    cbn [andb]. destruct (parsed g f) eqn:Hp; [|discriminate].
    intros [= ->]. exists f. simpl; auto.
Qed.

Lemma winner_some : forall g k entries f,
    In f entries -> in_group g f = true -> stem f = k ->
    parsed g f <> None ->
    winner g k entries <> None.
Proof.
  intros g k entries f Hin Hg Hk Hp Hw.
  revert Hin. unfold winner in Hw.
  induction entries as [|f' entries IH]; [tauto|].
  cbn [fold_left] in Hw. rewrite later_fold_acc in Hw.
  destruct (fold_left (later g k) entries None) eqn:E; [discriminate|].
  intros [->|Hin]; [|auto].
  unfold later in Hw. rewrite Hg, Hk, String.eqb_refl in Hw. cbn [andb] in Hw.
  destruct (parsed g f); congruence.
Qed.

(** When one file alone can speak for a stem in its group, the winner is
    what that file parses to. *)
Lemma winner_only : forall g k entries f,
    In f entries -> in_group g f = true -> stem f = k ->
    (forall f', In f' entries -> in_group g f' = true -> stem f' = k ->
                f' = f) ->
    winner g k entries = parsed g f.
Proof.
  intros g k entries f Hin Hg Hk Honly.
  destruct (winner g k entries) as [v|] eqn:E.
  - destruct (winner_some_inv _ _ _ _ E) as (f' & Hin' & Hg' & Hk' & Hp').
    rewrite (Honly f' Hin' Hg' Hk') in Hp'. congruence.
  - destruct (parsed g f) eqn:Hp; [|reflexivity].
    exfalso. apply (winner_some g k entries f); congruence.
Qed.

Lemma keys_store_NoDup : forall jobs d,
    NoDup (PyDict.keys d) -> NoDup (PyDict.keys (fold_left store jobs d)).
Proof.
  induction jobs as [|job jobs IH]; intros d H; [assumption|].
  cbn [fold_left]. apply IH. unfold store.
  destruct (parsed (fst job) (snd job)); [apply PyDictFacts.NoDup_set|]; assumption.
Qed.

Lemma In_set : forall d k v k' v',
    In (k, v) (PyDict.set k' v' d) -> (k = k' /\ v = v') \/ In (k, v) d.
Proof.
  induction d as [|[k0 v0] d IH]; intros k v k' v' H; simpl in H.
  - destruct H as [[= <- <-]|[]]. auto.
  - destruct (String.eqb_spec k' k0) as [->|Hne]; simpl in H.
    + destruct H as [[= <- <-]|H]; simpl; auto.
    + destruct H as [H|H]; simpl; [auto|].
      destruct (IH _ _ _ _ H); auto.
Qed.

(** Every entry of the folded registry is the whole object of one job. *)
Lemma In_fold_store : forall jobs d k v,
    In (k, v) (fold_left store jobs d) ->
    In (k, v) d
    \/ exists job, In job jobs /\ stem (snd job) = k
                   /\ parsed (fst job) (snd job) = Some v.
Proof.
  induction jobs as [|job jobs IH]; intros d k v H; [auto|].
  cbn [fold_left] in H. destruct (IH _ _ _ H) as [Hd|(j & Hj & ?)].
  - unfold store in Hd. destruct (parsed (fst job) (snd job)) eqn:Hp; [|auto].
    destruct (In_set _ _ _ _ _ Hd) as [[-> ->]|?]; [|auto].
    right. exists job. simpl. auto.
  - right. exists j. simpl. auto.
Qed.

Lemma In_schedule : forall entries job,
    In job (schedule entries) ->
    In (snd job) entries /\ in_group (fst job) (snd job) = true.
Proof.
  intros entries [g f] H. unfold schedule, jobs_of in H.
  rewrite !in_app_iff, !in_map_iff in H.
  destruct H as [H|[H|H]]; destruct H as (x & [= <- <-] & Hx);
    apply filter_In in Hx; exact Hx.
Qed.

Lemma fold_store_effective : forall jobs d,
    fold_left store jobs d = fold_left store (filter effective jobs) d.
Proof.
  induction jobs as [|job jobs IH]; intros d; [reflexivity|].
  cbn [fold_left filter]. destruct (effective job) eqn:E.
  - cbn [fold_left]. apply IH.
  - replace (store d job) with d; [apply IH|].
    unfold effective in E. unfold store.
    destruct (parsed (fst job) (snd job)); [discriminate|reflexivity].
Qed.

Lemma loads_false : forall f g,
    loads f = false -> in_group g f = true -> parsed g f = None.
Proof.
  intros f g H Hg. unfold loads in H. cbn [existsb] in H.
  rewrite !orb_false_iff in H. destruct H as (H1 & H2 & H3 & _).
  destruct g; [clear H2 H3|clear H1 H3|clear H1 H2];
    rewrite Hg in *; cbn [andb] in *;
    match goal with H : match ?p with _ => _ end = false |- _ =>
      destruct p; [discriminate|reflexivity] end.
Qed.

Lemma effective_jobs_skip : forall g before f after,
    loads f = false ->
    filter effective (jobs_of g (before ++ f :: after))
    = filter effective (jobs_of g (before ++ after)).
Proof.
  intros g before f after H. unfold jobs_of.
  rewrite !filter_app, !map_app, !filter_app. f_equal.
  cbn [filter]. destruct (in_group g f) eqn:Hg; [|reflexivity].
  cbn [map filter]. unfold effective at 1. cbn [fst snd].
  rewrite (loads_false f g H Hg). reflexivity.
Qed.

(** A file that no loop can parse contributes nothing. *)
Lemma fold_schedule_skip : forall before f after,
    loads f = false ->
    fold_left store (schedule (before ++ f :: after)) []
    = fold_left store (schedule (before ++ after)) [].
Proof.
  intros before f after H.
  rewrite fold_store_effective, (fold_store_effective (schedule (before ++ after))).
  unfold schedule. rewrite !filter_app, !effective_jobs_skip by assumption.
  reflexivity.
Qed.

Lemma distinct_names_inj : forall entries f f',
    distinct_names entries = true ->
    In f entries -> In f' entries -> name f = name f' -> f = f'.
Proof.
  induction entries as [|x entries IH]; intros f f' H Hf Hf' Hn; [destruct Hf|].
  cbn [distinct_names] in H. apply andb_true_iff in H. destruct H as [Hx Hrest].
  apply negb_true_iff in Hx.
  assert (Hfresh : forall y, In y entries -> name y <> name x).
  { intros y Hy Hxy.
    assert (existsb (fun z : file => String.eqb (name z) (name x)) entries = true).
    { apply existsb_exists. exists y. split; [assumption|].
      apply String.eqb_eq. assumption. }
    congruence. }
  destruct Hf as [<-|Hf], Hf' as [<-|Hf'].
  - reflexivity.
  - exfalso. apply (Hfresh f' Hf'). congruence.
  - exfalso. apply (Hfresh f Hf). congruence.
  - apply IH; assumption.
Qed.

End RegistryFacts.

(* ------------------------------------------------------------------ *)
(** ** Properties of the loader *)

Section LoaderProperties.
Context {DL : DataLibs} {RL : RenderLibs}.
Implicit Types (s : session) (f : file) (g : group) (k : string).

Lemma schedule_In : forall entries g f,
    In f entries -> in_group g f = true -> In (g, f) (schedule entries).
Proof.
  intros entries g f Hin Hg. unfold schedule, jobs_of.
  rewrite !in_app_iff, !in_map_iff.
  destruct g; [left|right; left|right; right];
    (exists f; split; [reflexivity | apply filter_In; auto]).
Qed.

Lemma schedule_nothing : forall entries,
    forallb (fun f => negb (recognized f)) entries = true ->
    schedule entries = [].
Proof.
  intros entries H. rewrite forallb_forall in H.
  assert (Hnone : forall g, filter (in_group g) entries = []).
  { intros g. induction entries as [|f entries IH]; [reflexivity|].
    cbn [filter]. pose proof (H f (or_introl eq_refl)) as Hf.
    apply negb_true_iff in Hf. unfold recognized in Hf.
    rewrite !orb_false_iff in Hf. destruct Hf as [[H1 H2] H3].
    destruct g; rewrite ?H1, ?H2, ?H3; apply IH; intros; apply H; simpl; auto. }
  unfold schedule, jobs_of. rewrite !Hnone. reflexivity.
Qed.

Lemma parsed_variant : forall g f v,
    parsed g f = Some v ->
    exists var, variant_of v = Some var /\ In var (variants_of_group g).
Proof.
  intros g f v H. destruct g; cbn [parsed] in H.
  - unfold parsed_nc in H. destruct (xr_open_dataset f).
    + injection H as <-. eexists; simpl; eauto.
    + destruct (xr_open_dataarray f); [|discriminate].
      injection H as <-. eexists; simpl; eauto.
  - unfold parsed_geojson in H. destruct (gpd_read_file f); [|discriminate].
    injection H as <-. eexists; simpl; eauto.
  - unfold parsed_csv in H. destruct (pd_read_csv f); [|discriminate].
    injection H as <-. eexists; simpl; eauto.
Qed.

Lemma loads_true : forall f,
    loads f = true ->
    exists g, in_group g f = true /\ parsed g f <> None.
Proof.
  intros f H. unfold loads in H. apply existsb_exists in H.
  destruct H as (g & _ & H). apply andb_true_iff in H. destruct H as [Hg Hp].
  exists g. split; [assumption|]. destruct (parsed g f); [discriminate|discriminate].
Qed.

(** C2.  When the data directory is missing, or exists without a single
    entry that ends in [.nc], [.geojson] or [.csv], [load_data] returns
    normally, reads no file, and leaves the empty registry. *)
Theorem load_data_nothing_recognized : forall dir s,
    nothing_recognized dir = true ->
    load_data dir s = (Returned tt, Session [] (reads s) (page s)).
Proof.
  intros [|entries] s H.
  - reflexivity.
  - rewrite load_data_run, (schedule_nothing entries H). simpl.
    rewrite app_nil_r. reflexivity.
Qed.

(** C3.  On a [.nc] file of the directory the loader first calls
    [open_dataset]; it calls [open_dataarray] only when that raised; when
    both raise the registry stays as it was.  The loop body returns
    normally in every case, and [load_data] runs it on the file. *)
Theorem nc_dataset_then_dataarray : forall entries f s,
    In f entries -> in_group Gridded f = true ->
    (forall s0,
        load_nc f s0
        = (Returned tt,
           match xr_open_dataset f with
           | Returned d =>
               Session (PyDict.set (stem f) (Dataset_ d) (datasets s0))
                       (reads s0 ++ [OpenDataset f]) (page s0)
           | Raised _ =>
               match xr_open_dataarray f with
               | Returned a =>
                   Session (PyDict.set (stem f) (DataArray_ a) (datasets s0))
                           (reads s0 ++ [OpenDataset f; OpenDataArray f])
                           (page s0)
               | Raised _ =>
                   Session (datasets s0)
                           (reads s0 ++ [OpenDataset f; OpenDataArray f])
                           (page s0)
               end
           end))
    /\ fst (load_data (Directory entries) s) = Returned tt
    /\ exists earlier afterwards,
        reads (snd (load_data (Directory entries) s))
        = reads s ++ earlier ++ attempts (Gridded, f) ++ afterwards.
Proof.
  intros entries f s Hin Hg. split; [|split].
  - intros s0. change (load_nc f s0) with (body_of Gridded f s0).
    rewrite body_run. unfold store, attempts. cbn [fst snd parsed].
    unfold parsed_nc. destruct (xr_open_dataset f); [reflexivity|].
    destruct (xr_open_dataarray f); reflexivity.
  - apply load_data_returns.
  - destruct (in_split _ _ (schedule_In entries Gridded f Hin Hg))
      as (l1 & l2 & Hsplit).
    exists (flat_map attempts l1), (flat_map attempts l2).
    rewrite load_data_run, Hsplit. cbn [snd reads].
    rewrite flat_map_app. reflexivity.
Qed.

(** C1, amended.  A file with a recognised extension that no loop can
    parse is dropped: [load_data] returns normally, the registry is the
    one that the directory without this file gives, no entry holds
    [None], and the file's stem is absent from the registry provided that
    no other file of the same stem loads. *)
Theorem unparsable_file_dropped : forall before f after s,
    recognized f = true -> loads f = false ->
    fst (load_data (Directory (before ++ f :: after)) s) = Returned tt
    /\ registry (Directory (before ++ f :: after)) s
       = registry (Directory (before ++ after)) s
    /\ Forall (fun kv => snd kv <> PyNone)
              (registry (Directory (before ++ f :: after)) s)
    /\ ((forall f', In f' (before ++ after) -> stem f' = stem f ->
                    loads f' = false) ->
        PyDict.get (stem f) (registry (Directory (before ++ f :: after)) s)
        = None).
Proof.
  intros before f after s Hrec Hfail. rewrite !registry_directory.
  split; [apply load_data_returns|]. split; [apply fold_schedule_skip, Hfail|].
  split.
  - apply Forall_forall. intros [k v] Hin.
    destruct (In_fold_store _ _ _ _ Hin) as [[]|(job & _ & _ & Hp)].
    destruct (parsed_variant _ _ _ Hp) as (var & Hvar & _).
    cbn [snd]. intros ->. discriminate.
  - intros Hothers.
    assert (Hnone : forall g, winner g (stem f) (before ++ f :: after) = None).
    { intros g. apply winner_none. intros f' Hin Hg Hk.
      apply loads_false; [|assumption].
      apply in_app_iff in Hin. destruct Hin as [Hin|[<-|Hin]];
        [apply Hothers; [apply in_app_iff|]; auto
        | assumption
        | apply Hothers; [apply in_app_iff|]; auto]. }
    rewrite get_schedule, !Hnone. reflexivity.
Qed.

(** A file that parses is outdone only by a file of its own or a later
    group. *)
Lemma parsed_file_outdone_later : forall entries s g f v,
    In f entries -> in_group g f = true -> parsed g f = Some v ->
    exists g' v',
      rank g <= rank g' /\ winner g' (stem f) entries = Some v'
      /\ PyDict.get (stem f) (registry (Directory entries) s) = Some v'.
Proof.
  intros entries s g f v Hin Hg Hp. rewrite registry_directory, get_schedule.
  assert (Hw : winner g (stem f) entries <> None)
    by (apply (winner_some g (stem f) entries f); congruence).
  destruct (winner Tabular (stem f) entries) as [t|] eqn:Et.
  { exists Tabular, t. destruct g; simpl; auto. }
  destruct (winner Vector (stem f) entries) as [w|] eqn:Ew.
  { exists Vector, w. destruct g; simpl; auto; congruence. }
  destruct (winner Gridded (stem f) entries) as [n|] eqn:En.
  { exists Gridded, n. destruct g; simpl; auto; congruence. }
  destruct g; congruence.
Qed.

(** C4.  [load_data] reads the [.nc] files first, then the [.geojson]
    files, then the [.csv] files.  Under a stem the registry therefore
    holds the object of the tabular file that parses, failing that of the
    vector file, failing that of the gridded file: no file that parses is
    outdone by one of an earlier group. *)
Theorem later_group_overwrites : forall entries s,
    reads (snd (load_data (Directory entries) s))
    = reads s
      ++ flat_map attempts (jobs_of Gridded entries)
      ++ flat_map attempts (jobs_of Vector entries)
      ++ flat_map attempts (jobs_of Tabular entries)
    /\ (forall k,
           PyDict.get k (registry (Directory entries) s)
           = match winner Tabular k entries with
             | Some v => Some v
             | None =>
                 match winner Vector k entries with
                 | Some v => Some v
                 | None => winner Gridded k entries
                 end
             end)
    /\ (forall g f v,
           In f entries -> in_group g f = true -> parsed g f = Some v ->
           exists g' v',
             rank g <= rank g' /\ winner g' (stem f) entries = Some v'
             /\ PyDict.get (stem f) (registry (Directory entries) s) = Some v').
Proof.
  intros entries s. split; [|split].
  - rewrite load_data_run. cbn [snd reads]. unfold schedule.
    rewrite !flat_map_app. reflexivity.
  - intros k. rewrite registry_directory. apply get_schedule.
  - intros g f v. apply parsed_file_outdone_later.
Qed.

End LoaderProperties.

(* ------------------------------------------------------------------ *)
(** ** Invariants of the registry *)

Section RegistryProperties.
Context {DL : DataLibs} {RL : RenderLibs}.
Implicit Types (s : session) (f : file) (g : group) (k : string).

Lemma registry_NoDup : forall dir s, NoDup (PyDict.keys (registry dir s)).
Proof.
  intros [|entries] s.
  - constructor.
  - rewrite registry_directory. apply keys_store_NoDup. constructor.
Qed.

Lemma registry_get_Some : forall entries s k v,
    PyDict.get k (registry (Directory entries) s) = Some v ->
    exists g f, In f entries /\ in_group g f = true /\ stem f = k
                /\ parsed g f = Some v.
Proof.
  intros entries s k v H. rewrite registry_directory, get_schedule in H.
  destruct (winner Tabular k entries) as [t|] eqn:Et.
  { injection H as ->. exists Tabular. apply winner_some_inv, Et. }
  destruct (winner Vector k entries) as [w|] eqn:Ew.
  { injection H as ->. exists Vector. apply winner_some_inv, Ew. }
  exists Gridded. apply winner_some_inv, H.
Qed.

Lemma registry_get_loaded : forall entries s f,
    In f entries -> loads f = true ->
    PyDict.contains (stem f) (registry (Directory entries) s) = true.
Proof.
  intros entries s f Hin Hl. destruct (loads_true f Hl) as (g & Hg & Hp).
  destruct (parsed g f) as [v|] eqn:Ev; [|congruence].
  destruct (parsed_file_outdone_later entries s g f v Hin Hg Ev)
    as (g' & v' & _ & _ & Hget).
  unfold PyDict.contains. rewrite Hget. reflexivity.
Qed.

(** C5, amended.  Two files of one stem with different recognised
    extensions never give two entries: the registry holds at most one
    entry under the stem, exactly one as soon as one of the two loads,
    and that entry is the whole object of a single file of that stem.
    When no file of the stem loads there is no entry. *)
Theorem same_stem_single_entry : forall entries s f1 f2 g1 g2,
    In f1 entries -> In f2 entries ->
    in_group g1 f1 = true -> in_group g2 f2 = true -> g1 <> g2 ->
    stem f1 = stem f2 ->
    PyDict.entries_for (stem f1) (registry (Directory entries) s) <= 1
    /\ (loads f1 = true \/ loads f2 = true ->
        PyDict.entries_for (stem f1) (registry (Directory entries) s) = 1)
    /\ (forall v,
           PyDict.get (stem f1) (registry (Directory entries) s) = Some v ->
           exists g f, In f entries /\ in_group g f = true
                       /\ stem f = stem f1 /\ parsed g f = Some v)
    /\ ((forall f, In f entries -> stem f = stem f1 -> loads f = false) ->
        PyDict.entries_for (stem f1) (registry (Directory entries) s) = 0).
Proof.
  intros entries s f1 f2 g1 g2 Hin1 Hin2 Hg1 Hg2 Hne Hstem.
  pose proof (registry_NoDup (Directory entries) s) as Hnd.
  rewrite (PyDictFacts.entries_for_NoDup _ (stem f1) Hnd).
  split; [destruct (PyDict.contains _ _); lia|]. split; [|split].
  - intros [Hl|Hl].
    + rewrite (registry_get_loaded entries s f1 Hin1 Hl). reflexivity.
    + rewrite Hstem, (registry_get_loaded entries s f2 Hin2 Hl). reflexivity.
  - intros v Hv. apply (registry_get_Some entries s). assumption.
  - intros Hnone. unfold PyDict.contains.
    destruct (PyDict.get (stem f1) (registry (Directory entries) s)) eqn:E;
      [|reflexivity].
    destruct (registry_get_Some entries s _ _ E) as (g & f & Hin & Hg & Hk & Hp).
    rewrite (loads_false f g (Hnone f Hin Hk) Hg) in Hp. discriminate.
Qed.

(** C6.  Every entry of the registry holds exactly one object, of one of
    the four kinds, never [None]: it is what the loop of one group parsed
    from one file of that stem, a data set or an array for [.nc], a
    feature collection for [.geojson], a record set for [.csv]. *)
Theorem registry_values_are_variants : forall dir s,
    Forall
      (fun kv =>
         exists var g f,
           variant_of (snd kv) = Some var
           /\ In var (variants_of_group g)
           /\ In f (glob dir (extension g))
           /\ stem f = fst kv
           /\ parsed g f = Some (snd kv))
      (registry dir s).
Proof.
  intros [|entries] s; [constructor|].
  rewrite registry_directory. apply Forall_forall. intros [k v] Hin.
  destruct (In_fold_store _ _ _ _ Hin) as [[]|([g f] & Hjob & Hk & Hp)].
  cbn [fst snd] in *.
  destruct (parsed_variant _ _ _ Hp) as (var & Hvar & Hgroup).
  destruct (In_schedule _ _ Hjob) as [Hf Hg]. cbn [fst snd] in *.
  exists var, g, f. repeat split; try assumption.
  cbn [glob]. apply filter_In. split; assumption.
Qed.

(** C7.  [load_data] starts from the empty dictionary, so the registry
    depends on the directory alone: a second run over the same directory
    returns normally with the same keys in the same order, and under each
    key an object with the same mean and the same value of any other
    statistic. *)
Theorem load_data_twice : forall dir s,
    fst (load_data dir s) = Returned tt
    /\ fst (load_data dir (snd (load_data dir s))) = Returned tt
    /\ PyDict.keys (registry dir (snd (load_data dir s)))
       = PyDict.keys (registry dir s)
    /\ (forall k,
           option_map float_mean
             (PyDict.get k (registry dir (snd (load_data dir s))))
           = option_map float_mean (PyDict.get k (registry dir s)))
    /\ (forall (A : Type) (statistic : pyobj -> A) k,
           option_map statistic
             (PyDict.get k (registry dir (snd (load_data dir s))))
           = option_map statistic (PyDict.get k (registry dir s)))
    /\ (forall s', registry dir s' = registry dir s).
Proof.
  intros dir s.
  assert (Hsame : forall s1 s2, registry dir s1 = registry dir s2).
  { intros s1 s2. destruct dir as [|entries]; [reflexivity|].
    rewrite !registry_directory. reflexivity. }
  split; [apply load_data_returns|]. split; [apply load_data_returns|].
  rewrite (Hsame (snd (load_data dir s)) s).
  repeat split; auto.
Qed.

End RegistryProperties.

(* ------------------------------------------------------------------ *)
(** ** Rendering *)

Section RenderingFacts.
Context {DL : DataLibs} {RL : RenderLibs}.
Implicit Types (s : session) (f : file) (g : group) (k : string).

Lemma only_shows_ret : forall (A : Type) (a : A), only_shows (ret a).
Proof. intros A a s. simpl. repeat split. exists []. symmetry. apply app_nil_r. Qed.

Lemma only_shows_has_key : forall k, only_shows (has_key k).
Proof. intros k s. simpl. repeat split. exists []. symmetry. apply app_nil_r. Qed.

Lemma only_shows_getitem : forall k, only_shows (getitem k).
Proof.
  intros k s. unfold getitem. destruct (PyDict.get k (datasets s)); simpl;
    repeat split; exists []; symmetry; apply app_nil_r.
Qed.

Lemma only_shows_call : forall (A : Type) (r : outcome A), only_shows (call r).
Proof. intros A r s. simpl. repeat split. exists []. symmetry. apply app_nil_r. Qed.

Lemma only_shows_st : forall w, only_shows (st w).
Proof. intros w s. simpl. repeat split. exists [w]. reflexivity. Qed.

Lemma only_shows_bind : forall (A B : Type) (c : py session A)
                               (k : A -> py session B),
    only_shows c -> (forall a, only_shows (k a)) -> only_shows (bind c k).
Proof.
  intros A B c k Hc Hk s. unfold bind; cbn [Monad_py].
  destruct (Hc s) as (Hd & Hr & shown & Hp).
  destruct (c s) as [[a|e] s1]; cbn [snd] in *.
  - destruct (Hk a s1) as (Hd' & Hr' & shown' & Hp').
    rewrite Hd', Hr', Hp', Hd, Hr, Hp. repeat split.
    exists (shown ++ shown'). symmetry. apply app_assoc.
  - repeat split; try assumption. exists shown. assumption.
Qed.

Ltac only_shows :=
  repeat first
    [ apply only_shows_bind
    | apply only_shows_ret
    | apply only_shows_has_key
    | apply only_shows_getitem
    | apply only_shows_call
    | apply only_shows_st
    | match goal with
      | |- forall _, only_shows _ => intro
      | |- only_shows (if ?b then _ else _) => destruct b
      | |- only_shows (match ?o with Some _ => _ | None => _ end) => destruct o
      end ].




Lemma only_shows_alerts_metric : only_shows alerts_metric.
Proof. unfold alerts_metric. only_shows. Qed.

(** When the library cannot turn the mean of the loaded object into a
    float, the first column raises and shows no card. *)
Lemma risk_metric_raises : forall s v e,
    PyDict.get "overfishing_risk_index" (datasets s) = Some v ->
    float_mean v = Raised e ->
    risk_metric s = (Raised e, s) /\ render_key_metrics s
    = (Raised e,
       Session (datasets s) (reads s)
               (page s ++ [Markdown "### Real-Time System Health"])).
Proof.
  intros s v e Hget Hmean.
  unfold render_key_metrics, risk_metric, has_key, getitem, call, st,
    PyDict.contains, bind; cbn [Monad_py datasets].
  split; repeat (cbv beta iota; cbn [datasets]; rewrite ?Hget, ?Hmean);
    reflexivity.
Qed.


(** A stem that one file alone can give, in a group that no later group
    overrides, is held with what that file parsed to. *)
Lemma registry_of_single_file : forall entries s g f k v,
    distinct_names entries = true ->
    In f entries -> name f = (k ++ extension g)%string ->
    k <> EmptyString -> (forall g', k <> extension g') ->
    parsed g f = Some v ->
    (forall g' f', rank g < rank g' -> In f' entries ->
                   name f' = (k ++ extension g')%string ->
                   parsed g' f' = None) ->
    PyDict.get k (registry (Directory entries) s) = Some v.
Proof.
  intros entries s g f k v Hdistinct Hin Hname Hk0 Hk Hp Hlater.
  assert (Hext : forall g', PyPath.is_extension (extension g')).
  { intros []; [apply PyPathFacts.nc_is_extension
               | apply PyPathFacts.geojson_is_extension
               | apply PyPathFacts.csv_is_extension]. }
  assert (Hstem : forall g' f', in_group g' f' = true -> stem f' = k ->
                                name f' = (k ++ extension g')%string).
  { intros g' f' Hg' Hs.
    apply (PyPathFacts.name_of_stem _ _ _ (Hext g') Hg' Hs (Hk g')). }
  assert (Hgf : in_group g f = true).
  { unfold in_group. rewrite Hname. apply PyPathFacts.endswith_app. }
  assert (Hkf : stem f = k).
  { unfold stem. rewrite Hname, (PyPathFacts.stem_app k _ (Hext g)).
    destruct k; [congruence|reflexivity]. }
  assert (Hwin : winner g k entries = Some v).
  { rewrite (winner_only g k entries f Hin Hgf Hkf); [assumption|].
    intros f' Hin' Hg' Hs'. apply (distinct_names_inj entries); auto.
    rewrite Hname. apply Hstem; assumption. }
  assert (Hnone : forall g', rank g < rank g' -> winner g' k entries = None).
  { intros g' Hr. apply winner_none. intros f' Hin' Hg' Hs'.
    apply Hlater; auto. }
  rewrite registry_directory, get_schedule.
  destruct g; cbn [rank] in Hnone.
  - rewrite (Hnone Tabular), (Hnone Vector) by (simpl; lia). assumption.
  - rewrite (Hnone Tabular) by (simpl; lia). rewrite Hwin. reflexivity.
  - rewrite Hwin. reflexivity.
Qed.

End RenderingFacts.

Section RenderingProperties.
Context {DL : DataLibs} {RL : RenderLibs}.
Implicit Types (s : session) (f : file) (g : group) (k : string).

Lemma load_data_datasets : forall dir s,
    datasets (snd (load_data dir s)) = registry dir s.
Proof. reflexivity. Qed.


(** C8.  What the code does in the scenario of the claim.  The directory
    holds [overfishing_risk_index.nc]; [open_dataset], which the loader
    tries first, opens it; no [.geojson] or [.csv] file of that stem
    parses.  Then the registry holds the grid under
    ['overfishing_risk_index'] as a data set, not as an array.  With a
    library for which [float()] of the mean of a data set raises, as it
    does in xarray, [render_key_metrics] raises that exception right after
    its heading: it shows no risk card, and no class, "CRITICAL" or
    other. *)
Theorem risk_data_set_not_classified : forall entries s f d e,
    distinct_names entries = true ->
    In f entries -> name f = "overfishing_risk_index.nc" ->
    xr_open_dataset f = Returned d ->
    float_mean (Dataset_ d) = Raised e ->
    (forall f', In f' entries ->
                name f' = "overfishing_risk_index.geojson" ->
                parsed_geojson f' = None) ->
    (forall f', In f' entries ->
                name f' = "overfishing_risk_index.csv" ->
                parsed_csv f' = None) ->
    PyDict.get "overfishing_risk_index" (registry (Directory entries) s)
    = Some (Dataset_ d)
    /\ render_key_metrics (snd (load_data (Directory entries) s))
       = (Raised e,
          shows (snd (load_data (Directory entries) s))
            [Markdown "### Real-Time System Health"])
    /\ (forall headline class,
          ~ In (Card "Overfishing Risk Index" headline class)
               (page (snd (render_key_metrics
                             (snd (load_data (Directory entries)
                                     (Session (datasets s) (reads s) []))))))).
Proof.
  intros entries s f d e Hdistinct Hin Hname Hopen Hmean Hgeo Hcsv.
  assert (Hget : forall s0,
             PyDict.get "overfishing_risk_index"
               (registry (Directory entries) s0) = Some (Dataset_ d)).
  { intros s0. apply (registry_of_single_file entries s0 Gridded f); auto.
    - discriminate.
    - intros []; discriminate.
    - cbn [parsed]. unfold parsed_nc. rewrite Hopen. reflexivity.
    - intros g' f' Hr Hin' Hn'. destruct g'; cbn [rank] in Hr; [lia| |].
      + apply Hgeo; assumption.
      + apply Hcsv; assumption. }
  split; [apply Hget|]. split.
  - apply (proj2 (risk_metric_raises _ (Dataset_ d) e (Hget s) Hmean)).
  - intros headline class.
    rewrite (proj2 (risk_metric_raises _ (Dataset_ d) e
                      (Hget (Session (datasets s) (reads s) [])) Hmean)).
    rewrite load_data_run. cbn [snd page app].
    intros [H|[]]. discriminate.
Qed.


Lemma create_figure_absent : forall (F : Type) k (build : pyobj -> outcome F) s,
    PyDict.contains k (datasets s) = false ->
    create_figure k build s = (Returned None, s).
Proof.
  intros F k build s H. unfold create_figure, has_key, bind; cbn [Monad_py].
  rewrite H. reflexivity.
Qed.

(** C10, amended.  A block of [render_key_metrics], a figure builder, or
    the risk, MPA, socioeconomic or illegal-fishing block of [run] that
    finds its dataset name absent from the registry tests for it first,
    calls no library and returns normally.  The builders return [None].
    The risk, habitat and connectivity cards and the figure slots of these
    tabs show a placeholder; the status block of the first tab shows
    nothing.  The alerts card and the illegal-fishing tab show an
    all-clear result instead, a count of zero and ["ALL CLEAR"].  With the
    directory missing [render_key_metrics] as a whole returns normally.
    Nothing is said here of the connectivity tab, which fails whatever the
    registry holds. *)
Theorem absent_dataset_rendering : forall s ctl,
    (forall (F : Type) k (build : pyobj -> outcome F),
        PyDict.contains k (datasets s) = false ->
        create_figure k build s = (Returned None, s))
    /\ (PyDict.contains "overfishing_risk_index" (datasets s) = false ->
        risk_metric s
        = (Returned tt, shows s [Metric "Risk Index" [Lit "Loading..."] ""])
        /\ risk_tab s
           = (Returned tt,
              shows s [Info "Risk data is being processed. Please run the processing pipeline first."]))
    /\ (PyDict.contains "habitat_quality_index" (datasets s) = false ->
        habitat_metric s
        = (Returned tt, shows s [Metric "Habitat Quality" [Lit "N/A"] ""]))
    /\ (PyDict.contains "larval_connectivity" (datasets s) = false ->
        connectivity_metric s
        = (Returned tt, shows s [Metric "Connectivity" [Lit "N/A"] ""]))
    /\ (PyDict.contains "recommended_mpa_locations" (datasets s) = false ->
        mpa_tab ctl s
        = (Returned tt,
           shows s (Info "MPA optimization map loading..."
                    :: simulator_metrics ctl)))
    /\ (PyDict.contains "socioeconomic_scenarios" (datasets s) = false ->
        socioeconomic_tab s
        = (Returned tt, shows s [Info "Socioeconomic analysis loading..."]))
    /\ (PyDict.contains "illegal_fishing_suspects" (datasets s) = false ->
        alerts_metric s = (Returned tt, shows s [all_clear_card])
        /\ illegal_fishing_tab s
           = (Returned tt,
              shows s
                [Success "**All Clear**: No suspicious patterns detected in current period";
                 Info "**How the system works:**"]))
    /\ forallb placeholder
         [Metric "Risk Index" [Lit "Loading..."] "";
          Info "Risk data is being processed. Please run the processing pipeline first.";
          Metric "Habitat Quality" [Lit "N/A"] "";
          Metric "Connectivity" [Lit "N/A"] "";
          Info "MPA optimization map loading...";
          Info "Socioeconomic analysis loading..."] = true
    /\ placeholder all_clear_card = false
    /\ placeholder
         (Success "**All Clear**: No suspicious patterns detected in current period")
       = false
    /\ render_key_metrics (snd (load_data Missing s))
       = (Returned tt,
          shows (snd (load_data Missing s))
            [Markdown "### Real-Time System Health";
             Metric "Risk Index" [Lit "Loading..."] "";
             Metric "Habitat Quality" [Lit "N/A"] "";
             Metric "Connectivity" [Lit "N/A"] "";
             all_clear_card]).
Proof.
  intros s ctl.
  split; [intros; apply create_figure_absent; assumption|].
  split.
  { intros H. split.
    - unfold risk_metric, has_key, bind; cbn [Monad_py]. rewrite H. reflexivity.
    - unfold risk_tab, create_risk_map_3d. unfold bind at 1; cbn [Monad_py].
      rewrite (create_figure_absent _ _ _ _ H).
      unfold chart_or_info, has_key, st, bind; cbn [Monad_py datasets].
      rewrite H. reflexivity. }
  split.
  { intros H. unfold habitat_metric, has_key, bind; cbn [Monad_py].
    rewrite H. reflexivity. }
  split.
  { intros H. unfold connectivity_metric, has_key, bind; cbn [Monad_py].
    rewrite H. reflexivity. }
  split.
  { intros H. unfold mpa_tab, create_mpa_optimization_map.
    unfold bind at 1; cbn [Monad_py]. rewrite (create_figure_absent _ _ _ _ H).
    unfold simulator_metrics, st, shows, bind; cbn [Monad_py datasets reads page].
    destruct (0 <? mpa_expansion ctl); cbn [datasets reads page];
      rewrite <- ?app_assoc; reflexivity. }
  split.
  { intros H. unfold socioeconomic_tab, create_socioeconomic_impact_chart.
    unfold bind; cbn [Monad_py]. rewrite (create_figure_absent _ _ _ _ H).
    reflexivity. }
  split.
  { intros H. split.
    - unfold alerts_metric, has_key, bind; cbn [Monad_py]. rewrite H.
      reflexivity.
    - unfold illegal_fishing_tab, has_key, st, shows, bind; cbn [Monad_py].
      rewrite H. cbn [datasets reads page]. rewrite <- app_assoc. reflexivity. }
  split; [reflexivity|]. split; [reflexivity|]. split; [reflexivity|].
  rewrite load_data_missing. cbn [snd].
  unfold render_key_metrics, risk_metric, habitat_metric,
    connectivity_metric, alerts_metric, has_key, st, shows, bind.
  cbn. rewrite <- !app_assoc. reflexivity.
Qed.

End RenderingProperties.

(* ------------------------------------------------------------------ *)
(** ** Further properties of the loader *)

Section LoaderExtras.
Context {DL : DataLibs} {RL : RenderLibs}.
Implicit Types (s : session) (f : file) (g : group) (k : string).

Lemma in_group_recognized : forall g f,
    in_group g f = true -> recognized f = true.
Proof.
  intros g f H. unfold recognized.
  destruct g; rewrite H; rewrite ?orb_true_r; reflexivity.
Qed.

Lemma filter_recognized_group : forall g entries,
    filter (in_group g) (filter recognized entries)
    = filter (in_group g) entries.
Proof.
  intros g entries. induction entries as [|f entries IH]; [reflexivity|].
  cbn [filter]. destruct (recognized f) eqn:Hr; cbn [filter].
  - rewrite IH. reflexivity.
  - destruct (in_group g f) eqn:Hg; [|assumption].
    rewrite (in_group_recognized g f Hg) in Hr. discriminate.
Qed.

(** X1.  Entries without a recognised extension are invisible to the loader:
    with or without them it reads the same files and builds the same
    registry. *)
Theorem unrecognized_entries_ignored : forall entries s,
    load_data (Directory entries) s
    = load_data (Directory (filter recognized entries)) s.
Proof.
  intros entries s. rewrite !load_data_run. unfold schedule, jobs_of.
  rewrite !filter_recognized_group. reflexivity.
Qed.

Lemma get_In : forall (d : PyDict.dict pyobj) k v,
    PyDict.get k d = Some v -> In (k, v) d.
Proof.
  induction d as [|[k0 v0] d IH]; intros k v H; [discriminate|].
  simpl in H. destruct (String.eqb_spec k k0) as [->|Hne].
  - injection H as ->. left. reflexivity.
  - right. apply IH. assumption.
Qed.

Lemma loads_of_parsed : forall g f v,
    in_group g f = true -> parsed g f = Some v -> loads f = true.
Proof.
  intros g f v Hg Hp. unfold loads. apply existsb_exists. exists g.
  split; [destruct g; simpl; auto|]. rewrite Hg, Hp. reflexivity.
Qed.

Lemma registry_key_iff : forall entries s k,
    In k (PyDict.keys (registry (Directory entries) s))
    <-> exists f, In f entries /\ loads f = true /\ stem f = k.
Proof.
  intros entries s k. rewrite <- PyDictFacts.contains_In. split.
  - unfold PyDict.contains.
    destruct (PyDict.get k (registry (Directory entries) s)) as [v|] eqn:E;
      [intros _|discriminate].
    destruct (registry_get_Some entries s k v E) as (g & f & Hin & Hg & Hk & Hp).
    exists f. repeat split; try assumption. apply (loads_of_parsed g f v Hg Hp).
  - intros (f & Hin & Hl & <-). apply registry_get_loaded; assumption.
Qed.

(** X2.  The keys of the registry are exactly the stems of the files that
    load, each key once; so the registry never has more entries than
    files that loaded. *)
Theorem registry_keys_are_loaded_stems : forall entries s,
    (forall k,
        In k (PyDict.keys (registry (Directory entries) s))
        <-> exists f, In f entries /\ loads f = true /\ stem f = k)
    /\ NoDup (PyDict.keys (registry (Directory entries) s))
    /\ List.length (registry (Directory entries) s)
       <= List.length (filter loads entries).
Proof.
  intros entries s. split; [apply registry_key_iff|].
  split; [apply registry_NoDup|].
  replace (List.length (registry (Directory entries) s))
    with (List.length (PyDict.keys (registry (Directory entries) s)))
    by apply length_map.
  rewrite <- (length_map stem (filter loads entries)).
  apply NoDup_incl_length; [apply registry_NoDup|].
  intros k Hk. apply registry_key_iff in Hk.
  destruct Hk as (f & Hin & Hl & <-). apply in_map, filter_In. auto.
Qed.

(** X3.  Two different files of one group have different stems, unless the stem
    is the bare extension (a file named [.csv] next to [.csv.csv]). *)
Theorem same_group_stems_distinct : forall g f1 f2,
    in_group g f1 = true -> in_group g f2 = true ->
    stem f1 = stem f2 -> name f1 <> name f2 ->
    stem f1 = extension g.
Proof.
  intros g f1 f2 H1 H2 Hs Hn.
  assert (Hext : PyPath.is_extension (extension g)).
  { destruct g; [apply PyPathFacts.nc_is_extension
                | apply PyPathFacts.geojson_is_extension
                | apply PyPathFacts.csv_is_extension]. }
  destruct (string_dec (stem f1) (extension g)) as [|Hne]; [assumption|].
  exfalso. apply Hn.
  rewrite (PyPathFacts.name_of_stem (name f1) (extension g) (stem f1) Hext H1
             eq_refl Hne).
  rewrite (PyPathFacts.name_of_stem (name f2) (extension g) (stem f1) Hext H2
             (eq_sym Hs) Hne).
  reflexivity.
Qed.

Lemma In_attempts : forall g f c,
    In c (attempts (g, f)) ->
    file_of c = f /\ group_of_call c = g
    /\ (c = OpenDataArray f -> exists e, xr_open_dataset f = Raised e).
Proof.
  intros g f c H. unfold attempts in H. cbn [fst snd] in H. destruct g.
  - destruct H as [<-|H]; [repeat split; discriminate|].
    destruct (xr_open_dataset f) as [d|e] eqn:E; [destruct H|].
    destruct H as [<-|[]]. repeat split. intros _. exists e. reflexivity.
  - destruct H as [<-|[]]. repeat split. discriminate.
  - destruct H as [<-|[]]. repeat split. discriminate.
Qed.

(** X4.  [load_data] opens nothing but entries of the directory, each with the
    call of the loop whose extension it has; it tries [open_dataarray] only
    on a file on which [open_dataset] has raised; and it does open every
    entry that has a recognised extension. *)
Theorem load_data_reads_recognized_entries : forall entries s,
    exists log,
      reads (snd (load_data (Directory entries) s)) = reads s ++ log
      /\ Forall (fun c => In (file_of c) entries
                          /\ in_group (group_of_call c) (file_of c) = true)
                log
      /\ (forall f, In (OpenDataArray f) log ->
                    exists e, xr_open_dataset f = Raised e)
      /\ (forall g f, In f entries -> in_group g f = true ->
                      In (first_call g f) log).
Proof.
  intros entries s. exists (flat_map attempts (schedule entries)).
  rewrite load_data_run. cbn [snd reads]. split; [reflexivity|].
  split; [|split].
  - apply Forall_forall. intros c Hc. apply in_flat_map in Hc.
    destruct Hc as ([g f] & Hjob & Hc).
    destruct (In_attempts g f c Hc) as (Hf & Hg & _). rewrite Hf, Hg.
    apply (In_schedule entries (g, f) Hjob).
  - intros f Hc. apply in_flat_map in Hc. destruct Hc as ([g f'] & _ & Hc).
    destruct (In_attempts g f' _ Hc) as (Hf & _ & Hraised).
    cbn [file_of] in Hf. subst f'. apply Hraised. reflexivity.
  - intros g f Hin Hg. apply in_flat_map. exists (g, f).
    split; [apply schedule_In; assumption|].
    unfold attempts. cbn [fst snd]. destruct g; left; reflexivity.
Qed.

Lemma winner_by_members : forall g k entries1 entries2,
    distinct_names entries2 = true ->
    (forall f, In f entries1 -> In f entries2) ->
    k <> extension g ->
    forall v, winner g k entries1 = Some v -> winner g k entries2 = Some v.
Proof.
  intros g k entries1 entries2 Hd Hsub Hk v Hw.
  destruct (winner_some_inv g k entries1 v Hw) as (f & Hin & Hg & Hs & Hp).
  rewrite <- Hp. apply winner_only; auto.
  intros f' Hin' Hg' Hs'.
  assert (Hext : PyPath.is_extension (extension g)).
  { destruct g; [apply PyPathFacts.nc_is_extension
                | apply PyPathFacts.geojson_is_extension
                | apply PyPathFacts.csv_is_extension]. }
  apply (distinct_names_inj entries2); auto.
  rewrite (PyPathFacts.name_of_stem (name f') (extension g) k Hext Hg' Hs' Hk).
  rewrite (PyPathFacts.name_of_stem (name f) (extension g) k Hext Hg Hs Hk).
  reflexivity.
Qed.

(** X5.  The order in which the operating system lists the directory does not
    matter for what the registry holds under a stem, as long as the stem
    is not a bare extension (the stem of a file named [.csv], say). *)
Theorem registry_independent_of_listing_order :
  forall entries1 entries2 s1 s2 k,
    distinct_names entries1 = true -> distinct_names entries2 = true ->
    (forall f, In f entries1 <-> In f entries2) ->
    (forall g, k <> extension g) ->
    PyDict.get k (registry (Directory entries1) s1)
    = PyDict.get k (registry (Directory entries2) s2).
Proof.
  intros entries1 entries2 s1 s2 k Hd1 Hd2 Hsame Hk.
  assert (Hw : forall g, winner g k entries1 = winner g k entries2).
  { intros g.
    destruct (winner g k entries1) as [v|] eqn:E1.
    - symmetry. apply (winner_by_members g k entries1 entries2); auto.
      intros f. apply Hsame.
    - destruct (winner g k entries2) as [v|] eqn:E2; [|reflexivity].
      rewrite (winner_by_members g k entries2 entries1 Hd1) with (v := v) in E1;
        auto. intros f. apply Hsame. }
  rewrite !registry_directory, !get_schedule, !Hw. reflexivity.
Qed.

Lemma contains_existsb : forall (d : PyDict.dict pyobj) k,
    PyDict.contains k d = existsb (String.eqb k) (PyDict.keys d).
Proof.
  unfold PyDict.contains.
  induction d as [|[k0 v0] d IH]; intros k; [reflexivity|].
  simpl. destruct (String.eqb k k0); [reflexivity|]. apply IH.
Qed.

Lemma keys_fold_store : forall jobs (d : PyDict.dict pyobj),
    PyDict.keys (fold_left store jobs d)
    = fold_left add_key
        (map (fun job => stem (snd job)) (filter effective jobs))
        (PyDict.keys d).
Proof.
  induction jobs as [|job jobs IH]; intros d; [reflexivity|].
  cbn [fold_left filter]. rewrite IH. unfold effective at 2, store.
  destruct (parsed (fst job) (snd job)); [|reflexivity].
  cbn [map fold_left]. rewrite PyDictFacts.keys_set, contains_existsb.
  reflexivity.
Qed.

(** X6.  The registry lists its keys in the order in which stems were first
    loaded, all [.nc] files before all [.geojson] files before all [.csv]
    files; a later file that overwrites an entry does not move it. *)
Theorem registry_key_order : forall entries s,
    PyDict.keys (registry (Directory entries) s)
    = fold_left add_key
        (map stem
           (filter (fun f => match parsed_nc f with Some _ => true | None => false end)
                   (filter (in_group Gridded) entries)
            ++ filter (fun f => match parsed_geojson f with Some _ => true | None => false end)
                   (filter (in_group Vector) entries)
            ++ filter (fun f => match parsed_csv f with Some _ => true | None => false end)
                   (filter (in_group Tabular) entries)))
        [].
Proof.
  intros entries s. rewrite registry_directory, keys_fold_store.
  f_equal. unfold schedule, jobs_of. rewrite !filter_app, !map_app.
  assert (H : forall g l,
             map (fun job : group * file => stem (snd job))
                 (filter effective (map (pair g) l))
             = map stem
                 (filter (fun f => match parsed g f with
                                   | Some _ => true | None => false end) l)).
  { intros g l. induction l as [|f l IH]; [reflexivity|].
    cbn [map filter]. unfold effective at 1. cbn [fst snd].
    destruct (parsed g f); cbn [map]; rewrite IH; reflexivity. }
  rewrite !H. reflexivity.
Qed.

End LoaderExtras.

(* ------------------------------------------------------------------ *)
(** ** Further properties of the key metrics *)

Section MetricExtras.
Context {DL : DataLibs} {RL : RenderLibs}.
Implicit Types (s : session) (k : string) (m : pyfloat).

Lemma float_gt_threshold_order : forall m,
    float_gt m lit_0_6 = true -> float_gt m lit_0_3 = true.
Proof.
  intros [q|[|]|]; simpl; try (intros; (reflexivity || discriminate)).
  rewrite !negb_true_iff. intros H.
  destruct (Qle_bool q (5404319552844595 # 18014398509481984)) eqn:E;
    [|reflexivity].
  apply Qle_bool_iff in E.
  assert (Hle : Qle_bool q (5404319552844595 # 9007199254740992) = true).
  { apply Qle_bool_iff. eapply Qle_trans; [exact E|].
    unfold Qle. simpl. lia. }
  congruence.
Qed.

Lemma risk_class_critical_iff : forall m,
    risk_class m = "CRITICAL" <-> float_gt m lit_0_6 = true.
Proof.
  intros m. unfold risk_class.
  destruct (float_gt m lit_0_6); [|destruct (float_gt m lit_0_3)];
    split; intros; (reflexivity || discriminate).
Qed.

Lemma risk_class_safe_iff : forall m,
    risk_class m = "SAFE" <-> float_gt m lit_0_3 = false.
Proof.
  intros m. pose proof (float_gt_threshold_order m) as Hord.
  unfold risk_class. destruct (float_gt m lit_0_6).
  - rewrite (Hord eq_refl). split; intros; discriminate.
  - destruct (float_gt m lit_0_3); split; intros;
      (reflexivity || discriminate).
Qed.

(** X7.  The risk classes are cut at the two thresholds with strict
    comparisons: above 0.6 is critical, above 0.3 and not above 0.6 is a
    warning, everything else is safe.  A mean of exactly 0.6 is a warning,
    a mean of exactly 0.3 is safe, and a mean that is not a number is
    safe.  The colour always goes with the class. *)
Theorem risk_class_thresholds : forall m,
    (risk_class m = "CRITICAL" <-> float_gt m lit_0_6 = true)
    /\ (risk_class m = "WARNING"
        <-> float_gt m lit_0_6 = false /\ float_gt m lit_0_3 = true)
    /\ (risk_class m = "SAFE" <-> float_gt m lit_0_3 = false)
    /\ (risk_color m = "red" <-> risk_class m = "CRITICAL")
    /\ (risk_color m = "yellow" <-> risk_class m = "WARNING")
    /\ (risk_color m = "green" <-> risk_class m = "SAFE")
    /\ risk_class lit_0_6 = "WARNING"
    /\ risk_class lit_0_3 = "SAFE"
    /\ risk_class NaN = "SAFE".
Proof.
  intros m. split; [apply risk_class_critical_iff|].
  split; [|split; [apply risk_class_safe_iff|]].
  - pose proof (float_gt_threshold_order m) as Hord. unfold risk_class.
    destruct (float_gt m lit_0_6); [|destruct (float_gt m lit_0_3)];
      split; intros H; try reflexivity; try discriminate;
        try (destruct H; discriminate); auto.
  - unfold risk_class, risk_color.
    destruct (float_gt m lit_0_6); [|destruct (float_gt m lit_0_3)];
      repeat split; intros; (reflexivity || discriminate).
Qed.

Lemma float_gt_monotone : forall a b t,
    (a <= b)%Q -> float_gt (Finite a) (Finite t) = true ->
    float_gt (Finite b) (Finite t) = true.
Proof.
  intros a b t Hab. simpl. rewrite !negb_true_iff. intros Ha.
  destruct (Qle_bool b t) eqn:E; [|reflexivity].
  apply Qle_bool_iff in E.
  assert (Qle_bool a t = true)
    by (apply Qle_bool_iff; eapply Qle_trans; eassumption).
  congruence.
Qed.

(** X8.  A larger mean never gets a milder class. *)
Theorem risk_class_monotone : forall a b,
    (a <= b)%Q ->
    (risk_class (Finite a) = "CRITICAL" -> risk_class (Finite b) = "CRITICAL")
    /\ (risk_class (Finite b) = "SAFE" -> risk_class (Finite a) = "SAFE").
Proof.
  intros a b Hab. split.
  - intros H. apply risk_class_critical_iff.
    apply (float_gt_monotone a b _ Hab). apply risk_class_critical_iff, H.
  - intros H. apply risk_class_safe_iff. apply risk_class_safe_iff in H.
    destruct (float_gt (Finite a) lit_0_3) eqn:E; [|reflexivity].
    pose proof (float_gt_monotone a b _ Hab E) as Hb.
    unfold lit_0_3 in H. congruence.
Qed.

(** A metric block, computed: the placeholder when the key is missing, the
    card when the library returns, the library's exception and no widget
    otherwise. *)
Lemma risk_metric_run : forall s,
    risk_metric s
    = match PyDict.get "overfishing_risk_index" (datasets s) with
      | None => (Returned tt, shows s [Metric "Risk Index" [Lit "Loading..."] ""])
      | Some v =>
          match float_mean v with
          | Returned x =>
              (Returned tt,
               shows s [Card "Overfishing Risk Index"
                          [Lit (risk_color x); Lit " "; Fixed x 2]
                          (risk_class x)])
          | Raised e => (Raised e, s)
          end
      end.
Proof.
  intros s. unfold risk_metric, has_key, getitem, call, st, PyDict.contains,
    bind; cbn [Monad_py].
  destruct (PyDict.get "overfishing_risk_index" (datasets s)) eqn:E;
    cbv beta iota; rewrite ?E; [|reflexivity].
  destruct (float_mean p); reflexivity.
Qed.

Lemma habitat_metric_run : forall s,
    habitat_metric s
    = match PyDict.get "habitat_quality_index" (datasets s) with
      | None => (Returned tt, shows s [Metric "Habitat Quality" [Lit "N/A"] ""])
      | Some v =>
          match float_mean v with
          | Returned x =>
              (Returned tt,
               shows s [Card "Habitat Quality" [Fixed x 2] "OUT OF 1.0"])
          | Raised e => (Raised e, s)
          end
      end.
Proof.
  intros s. unfold habitat_metric, has_key, getitem, call, st,
    PyDict.contains, bind; cbn [Monad_py].
  destruct (PyDict.get "habitat_quality_index" (datasets s)) eqn:E;
    cbv beta iota; rewrite ?E; [|reflexivity].
  destruct (float_mean p); reflexivity.
Qed.

Lemma connectivity_metric_run : forall s,
    connectivity_metric s
    = match PyDict.get "larval_connectivity" (datasets s) with
      | None => (Returned tt, shows s [Metric "Connectivity" [Lit "N/A"] ""])
      | Some v =>
          match float_mean v with
          | Returned x =>
              (Returned tt,
               shows s [Card "Larval Connectivity" [Fixed x 3]
                          "NETWORK STRENGTH"])
          | Raised e => (Raised e, s)
          end
      end.
Proof.
  intros s. unfold connectivity_metric, has_key, getitem, call, st,
    PyDict.contains, bind; cbn [Monad_py].
  destruct (PyDict.get "larval_connectivity" (datasets s)) eqn:E;
    cbv beta iota; rewrite ?E; [|reflexivity].
  destruct (float_mean p); reflexivity.
Qed.

Lemma alerts_metric_run : forall s,
    alerts_metric s
    = match PyDict.get "illegal_fishing_suspects" (datasets s) with
      | None => (Returned tt, shows s [all_clear_card])
      | Some v =>
          match py_len v with
          | Returned n => (Returned tt, shows s [alerts_card n])
          | Raised e => (Raised e, s)
          end
      end.
Proof.
  intros s. unfold alerts_metric, has_key, getitem, call, st,
    PyDict.contains, bind; cbn [Monad_py].
  destruct (PyDict.get "illegal_fishing_suspects" (datasets s)) eqn:E;
    cbv beta iota; rewrite ?E; [|reflexivity].
  destruct (py_len p); reflexivity.
Qed.

(** X9.  [render_key_metrics] returns normally exactly when each of the four
    datasets is missing or has its mean (its length, for the suspects)
    computed by the library.  When it returns it has put the heading and
    exactly one widget per column on the page; when it fails, one failing
    column hides all the columns after it. *)
Theorem key_metrics_return_iff_usable : forall s,
    (fst (render_key_metrics s) = Returned tt
     <-> usable "overfishing_risk_index" float_mean s
         && usable "habitat_quality_index" float_mean s
         && usable "larval_connectivity" float_mean s
         && usable "illegal_fishing_suspects" py_len s = true)
    /\ (fst (render_key_metrics s) = Returned tt ->
        exists w1 w2 w3 w4,
          snd (render_key_metrics s)
          = shows s [Markdown "### Real-Time System Health"; w1; w2; w3; w4])
    /\ (usable "overfishing_risk_index" float_mean s = false ->
        snd (render_key_metrics s)
        = shows s [Markdown "### Real-Time System Health"]).
Proof.
  intros s. unfold render_key_metrics, usable.
  unfold bind; cbn [Monad_py]. unfold st.
  rewrite risk_metric_run. unfold shows; cbn [datasets reads page].
  destruct (PyDict.get "overfishing_risk_index" (datasets s)) as [v1|];
    [destruct (float_mean v1)|];
    try (cbn [fst snd andb]; repeat split; intros; try discriminate;
         reflexivity);
    (rewrite habitat_metric_run; unfold shows; cbn [datasets reads page];
     destruct (PyDict.get "habitat_quality_index" (datasets s)) as [v2|];
       [destruct (float_mean v2)|];
       try (cbn [fst snd andb]; repeat split; intros; discriminate);
       (rewrite connectivity_metric_run; unfold shows;
        cbn [datasets reads page];
        destruct (PyDict.get "larval_connectivity" (datasets s)) as [v3|];
          [destruct (float_mean v3)|];
          try (cbn [fst snd andb]; repeat split; intros; discriminate);
          (rewrite alerts_metric_run; unfold shows; cbn [datasets reads page];
           destruct (PyDict.get "illegal_fishing_suspects" (datasets s))
             as [v4|];
             [destruct (py_len v4)|];
             try (cbn [fst snd andb]; repeat split; intros; discriminate);
             (cbn [fst snd andb]; repeat split; intros; try discriminate;
              rewrite <- !app_assoc; do 4 eexists; reflexivity)))).
Qed.

(** X10.  The alerts card and the illegal-fishing tab always tell the same
    story, since both go by the same lookup and the same [len]: when the
    card shows a count the tab's warning shows that count, when the card
    says all clear so does the tab, and when the card fails the tab fails
    with the same exception. *)
Theorem alerts_card_and_tab_agree : forall s,
    (forall n,
        alerts_metric s = (Returned tt, shows s [alerts_card n]) ->
        exists more,
          page (snd (illegal_fishing_tab s))
          = page s ++ Warning [Lit "**"; Count n;
                               Lit " suspicious clusters detected**"] :: more)
    /\ (alerts_metric s = (Returned tt, shows s [all_clear_card]) ->
        illegal_fishing_tab s
        = (Returned tt,
           shows s
             [Success "**All Clear**: No suspicious patterns detected in current period";
              Info "**How the system works:**"]))
    /\ (forall e,
          fst (alerts_metric s) = Raised e ->
          illegal_fishing_tab s = (Raised e, s)).
Proof.
  intros s. rewrite alerts_metric_run.
  unfold illegal_fishing_tab, has_key, getitem, call, st, PyDict.contains,
    bind; cbn [Monad_py].
  destruct (PyDict.get "illegal_fishing_suspects" (datasets s)) as [v|] eqn:E;
    cbv beta iota; rewrite ?E.
  - destruct (py_len v) as [n'|e0]; split; [|split| |split];
      try (intros; discriminate).
    + intros n H. injection H as H. apply app_inv_head in H.
      injection H as <-. cbn [datasets reads page].
      destruct (suspects_table v); cbn [snd datasets reads page];
        rewrite <- ?app_assoc; eexists; reflexivity.
    + intros H. injection H as H. apply app_inv_head in H. discriminate.
    + intros e [= <-]. reflexivity.
  - split; [|split].
    + intros n H. injection H as H. apply app_inv_head in H. discriminate.
    + intros _. unfold shows. cbn [datasets reads page].
      rewrite <- app_assoc. reflexivity.
    + intros e H. discriminate.
Qed.

End MetricExtras.

(* ------------------------------------------------------------------ *)
(** ** Further properties of [run] *)

Section RunExtras.
Context {DL : DataLibs} {RL : RenderLibs}.
Implicit Types (s : session) (k : string) (v : pyobj) (e : exn).

Lemma create_figure_run : forall (F : Type) key (build : pyobj -> outcome F) s,
    create_figure key build s
    = match PyDict.get key (datasets s) with
      | None => (Returned None, s)
      | Some v =>
          match build v with
          | Returned fig => (Returned (Some fig), s)
          | Raised e => (Raised e, s)
          end
      end.
Proof.
  intros F key build s.
  unfold create_figure, has_key, getitem, call, PyDict.contains, bind;
    cbn [Monad_py].
  destruct (PyDict.get key (datasets s)) eqn:E; cbn [negb]; cbv beta iota;
    rewrite ?E; [|reflexivity].
  destruct (build p); reflexivity.
Qed.

(** X11.  A figure builder never touches the session.  It returns [None] exactly
    when its dataset is missing: with the dataset in the registry it
    returns the figure or raises what the library raised.  So the
    "loading" note of a tab, here that of the socioeconomic tab, is shown
    exactly when the dataset is missing, never in place of a failure. *)
Theorem figure_none_iff_absent :
  forall (F : Type) key (build : pyobj -> outcome F) s,
    snd (create_figure key build s) = s
    /\ (fst (create_figure key build s) = Returned None
        <-> PyDict.contains key (datasets s) = false)
    /\ (forall v, PyDict.get key (datasets s) = Some v ->
                  fst (create_figure key build s)
                  = match build v with
                    | Returned fig => Returned (Some fig)
                    | Raised e => Raised e
                    end)
    /\ (socioeconomic_tab s
        = (Returned tt, shows s [Info "Socioeconomic analysis loading..."])
        <-> PyDict.contains "socioeconomic_scenarios" (datasets s) = false).
Proof.
  intros F key build s. split; [|split; [|split]].
  - rewrite create_figure_run.
    destruct (PyDict.get key (datasets s)) as [v|]; [destruct (build v)|];
      reflexivity.
  - rewrite create_figure_run. unfold PyDict.contains.
    destruct (PyDict.get key (datasets s)) as [v|]; [destruct (build v)|];
      cbn [fst]; split; intros; (reflexivity || discriminate).
  - intros v Hv. rewrite create_figure_run, Hv. destruct (build v); reflexivity.
  - unfold socioeconomic_tab, create_socioeconomic_impact_chart.
    unfold bind; cbn [Monad_py]. rewrite create_figure_run.
    unfold PyDict.contains.
    destruct (PyDict.get "socioeconomic_scenarios" (datasets s)) as [v|].
    + destruct (socioeconomic_subplots v); cbn [chart_or_info st];
        split; intros H; try discriminate.
      injection H as H. apply app_inv_head in H. discriminate.
    + split; reflexivity.
Qed.

Lemma shows_nothing_ret : forall (A : Type) (a : A), only_shows (ret a).
Proof. intros A a s. simpl. repeat split. exists []. symmetry. apply app_nil_r. Qed.

Lemma shows_nothing_has_key : forall k, only_shows (has_key k).
Proof. intros k s. simpl. repeat split. exists []. symmetry. apply app_nil_r. Qed.

Lemma shows_nothing_getitem : forall k, only_shows (getitem k).
Proof.
  intros k s. unfold getitem. destruct (PyDict.get k (datasets s)); simpl;
    repeat split; exists []; symmetry; apply app_nil_r.
Qed.

Lemma shows_nothing_call : forall (A : Type) (r : outcome A), only_shows (call r).
Proof. intros A r s. simpl. repeat split. exists []. symmetry. apply app_nil_r. Qed.

Lemma shows_nothing_missing_method : forall (A : Type) attribute,
    only_shows (@missing_method _ _ A attribute).
Proof.
  intros A attribute s. simpl. repeat split. exists []. symmetry.
  apply app_nil_r.
Qed.

Lemma shows_one_st : forall w, only_shows (st w).
Proof. intros w s. simpl. repeat split. exists [w]. reflexivity. Qed.

Lemma only_shows_seq : forall (A B : Type) (c : py session A)
                              (k : A -> py session B),
    only_shows c -> (forall a, only_shows (k a)) -> only_shows (bind c k).
Proof.
  intros A B c k Hc Hk s. unfold bind; cbn [Monad_py].
  destruct (Hc s) as (Hd & Hr & shown & Hp).
  destruct (c s) as [[a|e] s1]; cbn [snd] in *.
  - destruct (Hk a s1) as (Hd' & Hr' & shown' & Hp').
    rewrite Hd', Hr', Hp', Hd, Hr, Hp. repeat split.
    exists (shown ++ shown'). symmetry. apply app_assoc.
  - repeat split; try assumption. exists shown. assumption.
Qed.

Ltac shows_only :=
  repeat first
    [ apply only_shows_seq
    | apply shows_nothing_ret
    | apply shows_nothing_has_key
    | apply shows_nothing_getitem
    | apply shows_nothing_call
    | apply shows_nothing_missing_method
    | apply shows_one_st
    | match goal with
      | |- forall _, only_shows _ => intro
      | |- only_shows (if ?b then _ else _) => destruct b
      | |- only_shows (match ?o with Some _ => _ | None => _ end) => destruct o
      | |- only_shows (let '(_, _) := ?p in _) => destruct p
      | |- only_shows (match ?v with PyNone => _ | _ => _ end) => destruct v
      end ].

Lemma only_shows_collect_info : forall items, only_shows (collect_info items).
Proof.
  induction items as [|[key data] items IH]; cbn [collect_info].
  - shows_only.
  - apply only_shows_seq; [unfold describe; shows_only|intros d].
    apply only_shows_seq; [exact IH|intros infos]. shows_only.
Qed.

Lemma only_shows_explorer_tab : only_shows explorer_tab.
Proof.
  intros s. unfold explorer_tab. destruct (datasets s) as [|item items] eqn:E.
  - destruct (shows_one_st
                (Warning [Lit "No processed data found. Run the processing pipeline first."]) s)
      as (Hd & Hr & Hp).
    rewrite E in Hd. auto.
  - match goal with
    | |- context [?c s] =>
        assert (H : only_shows c)
          by (apply only_shows_seq;
              [apply only_shows_collect_info | shows_only]);
        destruct (H s) as (Hd & Hr & Hp)
    end.
    rewrite E in Hd. auto.
Qed.

Lemma only_shows_key_metrics : only_shows render_key_metrics.
Proof.
  unfold render_key_metrics, risk_metric, habitat_metric, connectivity_metric,
    alerts_metric. shows_only.
Qed.

(** X12.  Rendering is a pure consumer of the registry: whatever the libraries
    do, and whether it returns or raises, [run] leaves the registry as
    [load_data] built it, opens no file, and keeps every widget that was
    already on the page. *)
Theorem run_only_shows : forall ctl s,
    datasets (snd (run ctl s)) = datasets s
    /\ reads (snd (run ctl s)) = reads s
    /\ exists shown, page (snd (run ctl s)) = page s ++ shown.
Proof.
  intros ctl. change (only_shows (run ctl)). unfold run.
  apply only_shows_seq; [apply only_shows_key_metrics|intros _].
  apply only_shows_seq;
    [unfold risk_tab, create_risk_map_3d, create_figure, chart_or_info;
     shows_only|intros _].
  apply only_shows_seq;
    [unfold connectivity_tab, create_habitat_quality_animation,
       create_figure, chart_or_info;
     shows_only|intros _].
  apply only_shows_seq; [unfold illegal_fishing_tab; shows_only|intros _].
  apply only_shows_seq;
    [unfold mpa_tab, create_mpa_optimization_map, create_figure;
     shows_only|intros _].
  apply only_shows_seq;
    [unfold socioeconomic_tab, create_socioeconomic_impact_chart,
       create_figure, chart_or_info; shows_only|intros _].
  apply only_shows_explorer_tab.
Qed.

Lemma rof_ret : forall (A : Type) v (a : A), raises_only_for v (ret a).
Proof. intros A v a s e H. discriminate. Qed.

Lemma rof_st : forall v w, raises_only_for v (st w).
Proof. intros v w s e H. discriminate. Qed.

Lemma rof_call : forall (A : Type) v (r : outcome A),
    (forall e, r = Raised e -> lib_raises v e) -> raises_only_for v (call r).
Proof. intros A v r H s e Hr. apply H. exact Hr. Qed.

Lemma rof_bind : forall (A B : Type) v (c : py session A)
                         (k : A -> py session B),
    raises_only_for v c -> (forall a, raises_only_for v (k a)) ->
    raises_only_for v (bind c k).
Proof.
  intros A B v c k Hc Hk s e. unfold bind; cbn [Monad_py].
  pose proof (Hc s) as Hcs. destruct (c s) as [[a|e0] s1]; cbn [fst] in *.
  - apply Hk.
  - intros [= <-]. apply Hcs. reflexivity.
Qed.

Ltac rof :=
  repeat first
    [ apply rof_bind
    | apply rof_st
    | apply rof_ret
    | apply rof_call; intros ? ?; unfold lib_raises; tauto
    | match goal with
      | |- forall _, raises_only_for _ _ => intro
      | |- raises_only_for _ (if ?b then _ else _) => destruct b
      | |- raises_only_for _ (let '(_, _) := ?p in _) => destruct p
      end ].

Lemma blames_quiet : forall (A : Type) (c : py session A),
    (forall s, exists a, fst (c s) = Returned a) -> blames_library c.
Proof. intros A c H s e He. destruct (H s) as [a Ha]. congruence. Qed.

Lemma blames_seq : forall (A B : Type) (c : py session A)
                          (k : A -> py session B),
    blames_library c -> only_shows c -> (forall a, blames_library (k a)) ->
    blames_library (bind c k).
Proof.
  intros A B c k Hc Hshow Hk s e. unfold bind; cbn [Monad_py].
  pose proof (Hc s) as Hcs. destruct (Hshow s) as (Hd & _).
  destruct (c s) as [[a|e0] s1]; cbn [fst snd] in *.
  - intros H. destruct (Hk a s1 e H) as (key & v & Hin & Hv).
    exists key, v. rewrite <- Hd. auto.
  - intros [= <-]. apply Hcs. reflexivity.
Qed.

(** The guard that every consumer puts in front of its lookup. *)
Lemma blames_guard : forall (A : Type) key (use : pyobj -> py session A)
                            (otherwise : py session A),
    (forall v, raises_only_for v (use v)) -> blames_library otherwise ->
    blames_library
      (present <- has_key key ;;
       if (present : bool) then bind (getitem key) use else otherwise).
Proof.
  intros A key use otherwise Huse Hother s e.
  unfold has_key, getitem, PyDict.contains, bind; cbn [Monad_py].
  destruct (PyDict.get key (datasets s)) as [v|] eqn:E; cbv beta iota.
  - rewrite E. intros H. exists key, v. split; [apply get_In, E|].
    apply (Huse v s e H).
  - apply Hother.
Qed.

Lemma blames_create_figure : forall (F : Type) key (build : pyobj -> outcome F),
    (forall v e, build v = Raised e -> lib_raises v e) ->
    blames_library (create_figure key build).
Proof.
  intros F key build Hbuild s e. rewrite create_figure_run.
  destruct (PyDict.get key (datasets s)) as [v|] eqn:E; [|discriminate].
  destruct (build v) as [fig|e0] eqn:B; [discriminate|].
  intros [= <-]. exists key, v. split; [apply get_In, E | apply Hbuild, B].
Qed.

Lemma blames_chart_or_info : forall fig text,
    blames_library (chart_or_info fig text).
Proof.
  intros fig text. apply blames_quiet. intros s.
  destruct fig; eexists; reflexivity.
Qed.

Lemma blames_collect_info : forall items s e,
    fst (collect_info items s) = Raised e ->
    exists k v, In (k, v) items /\ lib_raises v e.
Proof.
  induction items as [|[key data] items IH]; intros s e H; [discriminate|].
  cbn [collect_info] in H. unfold bind in H; cbn [Monad_py] in H.
  assert (Hd : (exists d, describe data s = (Returned d, s))
               \/ (exists e0, describe data s = (Raised e0, s)
                              /\ lib_raises data e0)).
  { unfold describe, call, bind; cbn [Monad_py].
    destruct data;
      match goal with
      | |- context [nbytes ?v] =>
          destruct (nbytes v) as [n|e0] eqn:L
      | |- context [py_len ?v] =>
          destruct (py_len v) as [n|e0] eqn:L
      end;
      try (left; eexists; reflexivity);
      (right; exists e0; split; [reflexivity|unfold lib_raises; tauto]). }
  destruct Hd as [[d Hd]|(e0 & Hd & Hv)]; rewrite Hd in H.
  - destruct (collect_info items s) as [[infos|e1] s1] eqn:C; [discriminate|].
    cbn [fst] in H. injection H as ->.
    destruct (IH s e) as (k & v & Hin & Hv); [rewrite C; reflexivity|].
    exists k, v. split; [right; assumption|assumption].
  - cbn [fst] in H. injection H as <-.
    exists key, data. split; [left; reflexivity|assumption].
Qed.

Lemma blames_explorer_tab : blames_library explorer_tab.
Proof.
  intros s e. unfold explorer_tab.
  destruct (datasets s) as [|item items] eqn:E; [discriminate|].
  unfold bind; cbn [Monad_py].
  destruct (collect_info (item :: items) s) as [[infos|e0] s1] eqn:C.
  - discriminate.
  - cbn [fst]. intros [= <-].
    apply (blames_collect_info (item :: items) s e0). rewrite C. reflexivity.
Qed.

Lemma blames_key_metrics : blames_library render_key_metrics.
Proof.
  unfold render_key_metrics.
  apply blames_seq;
    [apply blames_quiet; intros s; eexists; reflexivity
    |apply shows_one_st|intros _].
  apply blames_seq;
    [unfold risk_metric; apply blames_guard;
     [intros v; rof | apply blames_quiet; intros s; eexists; reflexivity]
    |unfold risk_metric; shows_only|intros _].
  apply blames_seq;
    [unfold habitat_metric; apply blames_guard;
     [intros v; rof | apply blames_quiet; intros s; eexists; reflexivity]
    |unfold habitat_metric; shows_only|intros _].
  apply blames_seq;
    [unfold connectivity_metric; apply blames_guard;
     [intros v; rof | apply blames_quiet; intros s; eexists; reflexivity]
    |unfold connectivity_metric; shows_only|intros _].
  unfold alerts_metric; apply blames_guard;
    [intros v; rof | apply blames_quiet; intros s; eexists; reflexivity].
Qed.

Lemma blames_risk_tab : blames_library risk_tab.
Proof.
  unfold risk_tab, create_risk_map_3d.
  apply blames_seq;
    [apply blames_create_figure; intros v e H; unfold lib_raises; tauto
    |unfold create_figure; shows_only|intros fig].
  apply blames_seq;
    [apply blames_chart_or_info
    |unfold chart_or_info; shows_only|intros _].
  apply blames_guard;
    [intros v; rof | apply blames_quiet; intros s; eexists; reflexivity].
Qed.

Lemma blames_illegal_fishing_tab : blames_library illegal_fishing_tab.
Proof.
  unfold illegal_fishing_tab. apply blames_guard;
    [intros v; rof | apply blames_quiet; intros s; eexists; reflexivity].
Qed.

Lemma blames_mpa_tab : forall ctl, blames_library (mpa_tab ctl).
Proof.
  intros ctl. unfold mpa_tab, create_mpa_optimization_map.
  apply blames_seq;
    [apply blames_create_figure; intros v e H; unfold lib_raises; tauto
    |unfold create_figure; shows_only|intros m].
  apply blames_quiet. intros s.
  destruct m; destruct (0 <? mpa_expansion ctl); eexists; reflexivity.
Qed.

Lemma blames_socioeconomic_tab : blames_library socioeconomic_tab.
Proof.
  unfold socioeconomic_tab, create_socioeconomic_impact_chart.
  apply blames_seq;
    [apply blames_create_figure; intros v e H; unfold lib_raises; tauto
    |unfold create_figure; shows_only|intros fig].
  apply blames_chart_or_info.
Qed.

(** X13.  The blocks that consult the registry, [render_key_metrics] and
    the risk, illegal-fishing, MPA, socioeconomic and explorer blocks of
    [run], fail only for what a library does: an exception that escapes
    one of them was raised by a library on an object held in the registry.
    A dataset that is missing never makes them fail, since the lookups
    themselves raise nothing.  (The connectivity block is not among them:
    it fails on a method that the class does not have.) *)
Theorem block_failures_come_from_libraries : forall ctl block s e,
    In block [render_key_metrics; risk_tab; illegal_fishing_tab;
              mpa_tab ctl; socioeconomic_tab; explorer_tab] ->
    fst (block s) = Raised e ->
    exists k v, In (k, v) (datasets s) /\ lib_raises v e.
Proof.
  intros ctl block s e Hblock.
  assert (H : blames_library block).
  { destruct Hblock as [<-|[<-|[<-|[<-|[<-|[<-|[]]]]]]].
    - apply blames_key_metrics.
    - apply blames_risk_tab.
    - apply blames_illegal_fishing_tab.
    - apply blames_mpa_tab.
    - apply blames_socioeconomic_tab.
    - apply blames_explorer_tab. }
  apply H.
Qed.

(** X14.  One card that fails takes the whole dashboard with it: when the risk
    dataset is in the registry and the library cannot give its mean as a
    float, [run] raises that exception after the heading of the key
    metrics, and shows no other card and no tab. *)
Theorem failing_risk_card_stops_run : forall ctl s v e,
    PyDict.get "overfishing_risk_index" (datasets s) = Some v ->
    float_mean v = Raised e ->
    run ctl s
    = (Raised e, shows s [Markdown "### Real-Time System Health"]).
Proof.
  intros ctl s v e Hget Hmean. unfold run. unfold bind at 1; cbn [Monad_py].
  rewrite (proj2 (risk_metric_raises s v e Hget Hmean)). reflexivity.
Qed.

End RunExtras.
(* ------------------------------------------------------------------ *)
(** ** The data explorer on a loaded registry *)

Section ExplorerExtras.
Context {DL : DataLibs} {RL : RenderLibs}.
Implicit Types (s : session) (k : string) (v : pyobj).

Lemma registry_values_have_variant : forall dir s0 kv,
    In kv (registry dir s0) -> exists var, variant_of (snd kv) = Some var.
Proof.
  intros [|entries] s0 [k v] Hin; [destruct Hin|].
  rewrite registry_directory in Hin.
  destruct (In_fold_store _ _ _ _ Hin) as [[]|(job & _ & _ & Hp)].
  destruct (parsed_variant _ _ _ Hp) as (var & Hvar & _).
  exists var. exact Hvar.
Qed.

Lemma describe_row : forall key data s d s',
    variant_of data <> None ->
    describe data s = (Returned d, s') ->
    s' = s /\ row_describes (key, data) (key, fst d, snd d).
Proof.
  intros key data s d s' Hvar H. unfold describe, call, bind in H;
    cbn [Monad_py] in H. unfold row_describes. cbn [fst snd].
  destruct data; [exfalso; apply Hvar; reflexivity| | | |];
    match type of H with
    | context [nbytes ?v] => destruct (nbytes v) as [n|e0] eqn:L
    | context [py_len ?v] => destruct (py_len v) as [n|e0] eqn:L
    end; try discriminate;
    injection H as <- <-; (split; [reflexivity|]); (split; [reflexivity|]);
    eexists; (split; [reflexivity|]); (split; [reflexivity|]); cbn [snd];
    auto.
Qed.

Lemma collect_info_rows : forall items s rows s',
    (forall kv, In kv items -> variant_of (snd kv) <> None) ->
    collect_info items s = (Returned rows, s') ->
    s' = s /\ Forall2 row_describes items rows.
Proof.
  induction items as [|[key data] items IH]; intros s rows s' Hvar H.
  - injection H as <- <-. split; [reflexivity|constructor].
  - cbn [collect_info] in H. unfold bind in H; cbn [Monad_py] in H.
    destruct (describe data s) as [[d|e0] s1] eqn:D; [|discriminate].
    destruct (describe_row key data s d s1) as [-> Hrow];
      [apply (Hvar (key, data)); left; reflexivity|exact D|].
    destruct (collect_info items s) as [[infos|e1] s2] eqn:C; [|discriminate].
    destruct (IH s infos s2) as [-> Hrows];
      [intros kv Hkv; apply Hvar; right; exact Hkv|exact C|].
    injection H as <- <-. split; [reflexivity|].
    constructor; assumption.
Qed.

(** X15.  On a registry that [load_data] built, the data explorer, when it
    returns, shows either the "no processed data" warning, for the empty
    registry, or one table with exactly one row per entry, in the order of
    the registry, each row with the entry's key, the label of the kind the
    file was loaded as, and its size, followed by the heading of the
    export options and the three download buttons.  The last branch of the type test, which labels anything else
    as CSV, is only ever taken by tables. *)
Theorem explorer_rows_follow_registry : forall dir s0 s,
    datasets s = registry dir s0 ->
    fst (explorer_tab s) = Returned tt ->
    (registry dir s0 = []
     /\ snd (explorer_tab s)
        = shows s [Warning [Lit "No processed data found. Run the processing pipeline first."]])
    \/ (exists rows,
           Forall2 row_describes (registry dir s0) rows
           /\ snd (explorer_tab s)
              = shows s [DatasetInfo rows;
                         Markdown "#### Export Options";
                         DownloadButton "Download Risk Data (NetCDF)"
                           "medguard_risk_index.nc";
                         DownloadButton "Download MPA Recommendations (GeoJSON)"
                           "recommended_mpas.geojson";
                         DownloadButton "Download Full Report (PDF)"
                           "medguard_full_report.pdf"]).
Proof.
  intros dir s0 s Hreg Hret.
  assert (Hvar : forall kv, In kv (datasets s) ->
                            variant_of (snd kv) <> None).
  { intros kv Hin. rewrite Hreg in Hin.
    destruct (registry_values_have_variant dir s0 kv Hin) as [var Hv].
    congruence. }
  rewrite <- Hreg. unfold explorer_tab in *.
  destruct (datasets s) as [|item items] eqn:E.
  - left. split; reflexivity.
  - right. unfold bind in *; cbn [Monad_py] in *.
    destruct (collect_info (item :: items) s) as [[rows|e0] s1] eqn:C;
      [|discriminate].
    destruct (collect_info_rows (item :: items) s rows s1 Hvar C)
      as [-> Hrows].
    exists rows. split; [exact Hrows|].
    unfold st, shows. cbn [snd datasets reads page].
    rewrite E, <- !app_assoc. reflexivity.
Qed.

Lemma run_on_empty : forall ctl r p,
    run ctl (Session [] r p)
    = (Raised (AttributeError "create_connectivity_network"),
       Session [] r (p ++ empty_dashboard)).
Proof.
  intros ctl r p. unfold empty_dashboard.
  unfold run, render_key_metrics, risk_metric,
    habitat_metric, connectivity_metric, alerts_metric, risk_tab,
    connectivity_tab, create_risk_map_3d, create_figure, chart_or_info,
    missing_method, raise, has_key, st, bind.
  cbn. rewrite <- !app_assoc. reflexivity.
Qed.

(** X16.  A directory in which nothing loads, because it holds no
    recognised file or only files that do not parse, is treated like a
    missing directory.  The registry is empty, [render_key_metrics] returns
    normally, and [run] shows the heading, the three placeholders, the
    all-clear card and the note of the risk tab, and then fails in the
    connectivity tab on the method that the class does not have, exactly
    as it does for a missing directory. *)
Theorem nothing_loaded_dashboard : forall entries ctl s,
    forallb (fun f => negb (loads f)) entries = true ->
    registry (Directory entries) s = []
    /\ fst (render_key_metrics (snd (load_data (Directory entries) s)))
       = Returned tt
    /\ fst (run ctl (snd (load_data (Directory entries) s)))
       = Raised (AttributeError "create_connectivity_network")
    /\ page (snd (run ctl (snd (load_data (Directory entries) s))))
       = page s ++ empty_dashboard
    /\ page (snd (run ctl (snd (load_data (Directory entries) s))))
       = page (snd (run ctl (snd (load_data Missing s)))).
Proof.
  intros entries ctl s H.
  assert (Hreg : registry (Directory entries) s = []).
  { destruct (registry (Directory entries) s) as [|[k v] rest] eqn:E;
      [reflexivity|].
    assert (Hk : In k (PyDict.keys (registry (Directory entries) s)))
      by (rewrite E; left; reflexivity).
    apply registry_key_iff in Hk. destruct Hk as (f & Hin & Hl & _).
    rewrite forallb_forall in H. specialize (H f Hin).
    rewrite Hl in H. discriminate. }
  split; [exact Hreg|].
  unfold registry in Hreg.
  destruct (snd (load_data (Directory entries) s)) as [d r p] eqn:E.
  assert (Hp : p = page s).
  { change p with (page (Session d r p)). rewrite <- E, load_data_run.
    reflexivity. }
  cbn [datasets] in Hreg. subst d p.
  rewrite run_on_empty. cbn [fst snd page].
  rewrite load_data_missing. cbn [snd]. rewrite run_on_empty.
  repeat split.
Qed.

End ExplorerExtras.
(* ------------------------------------------------------------------ *)
(** ** The properties at work on the sample library *)

#[local] Existing Instance Sample.data.
#[local] Existing Instance Sample.render.

(** Three files of one stem: the table is what the registry keeps, and the
    files were read group by group, not in listing order. *)
Example three_of_a_stem_loaded :
  load_data (Directory Sample.three_of_a_stem) fresh
  = (Returned tt,
     Session [("zones", DataFrame_ 3)]
       [OpenDataset (File "zones.nc" "0.1");
        ReadFile (File "zones.geojson" "2 rows");
        ReadCsv (File "zones.csv" "3 rows")]
       []).
Proof. reflexivity. Qed.

(** With the directory missing, [run] shows three placeholders, the
    all-clear card and the note of the risk tab, and then fails in the
    connectivity tab. *)
Example run_on_missing_directory :
  run (Controls 0) (snd (init Missing fresh))
  = (Raised (AttributeError "create_connectivity_network"),
     Session [] []
       [Markdown "### Real-Time System Health";
        Metric "Risk Index" [Lit "Loading..."] "";
        Metric "Habitat Quality" [Lit "N/A"] "";
        Metric "Connectivity" [Lit "N/A"] "";
        all_clear_card;
        Info "Risk data is being processed. Please run the processing pipeline first."]).
Proof. reflexivity. Qed.

(** A risk grid that opens as a data set: in this library [float()] of its
    mean is a type error, and the key metrics stop at the first card. *)
Example risk_data_set_raises :
  render_key_metrics
    (snd (load_data
            (Directory [File "overfishing_risk_index.nc" "0.8"]) fresh))
  = (Raised (TypeError "float() argument must be a real number"),
     Session [("overfishing_risk_index", Dataset_ lit_0_8)]
       [OpenDataset (File "overfishing_risk_index.nc" "0.8")]
       [Markdown "### Real-Time System Health"]).
Proof. reflexivity. Qed.

Lemma load_data_nothing_recognized_witness :
  nothing_recognized (Directory Sample.unrecognized_only) = true
  /\ load_data (Directory Sample.unrecognized_only) fresh
     = (Returned tt, Session [] [] []).
Proof.
  split; [reflexivity|].
  apply (load_data_nothing_recognized
           (Directory Sample.unrecognized_only) fresh).
  reflexivity.
Defined.

Lemma nc_dataset_then_dataarray_witness :
  fst (load_data (Directory Sample.broken_grid_good_table) fresh) = Returned tt
  /\ exists earlier afterwards,
      reads (snd (load_data (Directory Sample.broken_grid_good_table) fresh))
      = [] ++ earlier
        ++ [OpenDataset (File "x.nc" Sample.garbage);
            OpenDataArray (File "x.nc" Sample.garbage)]
        ++ afterwards.
Proof.
  destruct (nc_dataset_then_dataarray Sample.broken_grid_good_table
              (File "x.nc" Sample.garbage) fresh)
    as (_ & Hreturns & Hreads).
  - simpl. left. reflexivity.
  - reflexivity.
  - split; [exact Hreturns | exact Hreads].
Defined.

Lemma unparsable_file_dropped_witness :
  registry (Directory ([] ++ File "x.nc" Sample.garbage
                          :: [File "y.csv" "1 row"])) fresh
  = registry (Directory ([] ++ [File "y.csv" "1 row"])) fresh
  /\ PyDict.get "x"
       (registry (Directory ([] ++ File "x.nc" Sample.garbage
                               :: [File "y.csv" "1 row"])) fresh)
     = None.
Proof.
  destruct (unparsable_file_dropped [] (File "x.nc" Sample.garbage)
              [File "y.csv" "1 row"] fresh)
    as (_ & Hsame & _ & Habsent).
  - reflexivity.
  - reflexivity.
  - split; [exact Hsame|]. apply Habsent.
    intros f' [<-|[]] Hstem. vm_compute in Hstem. discriminate.
Defined.

(** C1 as stated fails: the broken grid [x.nc] parses as nothing, yet the
    registry has an entry under its stem, the table of [x.csv]. *)
Lemma broken_grid_stem_present :
  In (File "x.nc" Sample.garbage) Sample.broken_grid_good_table
  /\ recognized (File "x.nc" Sample.garbage) = true
  /\ loads (File "x.nc" Sample.garbage) = false
  /\ fst (load_data (Directory Sample.broken_grid_good_table) fresh)
     = Returned tt
  /\ PyDict.get (stem (File "x.nc" Sample.garbage))
       (registry (Directory Sample.broken_grid_good_table) fresh)
     = Some (DataFrame_ 1).
Proof. repeat split. left. reflexivity. Qed.

Lemma same_stem_single_entry_witness :
  PyDict.entries_for "zones" (registry (Directory Sample.three_of_a_stem) fresh)
  = 1.
Proof.
  destruct (same_stem_single_entry Sample.three_of_a_stem fresh
              (File "zones.csv" "3 rows") (File "zones.nc" "0.1")
              Tabular Gridded)
    as (_ & Hone & _).
  - simpl. left. reflexivity.
  - simpl. right. left. reflexivity.
  - reflexivity.
  - reflexivity.
  - discriminate.
  - reflexivity.
  - apply Hone. left. reflexivity.
Defined.

(** C5 as stated fails: two files of the stem [x] with different
    recognised extensions, neither of which parses, leave no entry. *)
Lemma both_broken_no_entry :
  In (File "x.nc" Sample.garbage) Sample.both_broken
  /\ In (File "x.csv" Sample.garbage) Sample.both_broken
  /\ in_group Gridded (File "x.nc" Sample.garbage) = true
  /\ in_group Tabular (File "x.csv" Sample.garbage) = true
  /\ stem (File "x.nc" Sample.garbage) = stem (File "x.csv" Sample.garbage)
  /\ PyDict.entries_for (stem (File "x.nc" Sample.garbage))
       (registry (Directory Sample.both_broken) fresh)
     = 0.
Proof. repeat split. left. reflexivity. right. left. reflexivity. Qed.

Lemma risk_data_set_not_classified_witness :
  PyDict.get "overfishing_risk_index"
    (registry (Directory Sample.risk_only) fresh)
  = Some (Dataset_ lit_0_8)
  /\ render_key_metrics (snd (load_data (Directory Sample.risk_only) fresh))
     = (Raised (TypeError "float() argument must be a real number"),
        shows (snd (load_data (Directory Sample.risk_only) fresh))
          [Markdown "### Real-Time System Health"]).
Proof.
  destruct (@risk_data_set_not_classified Sample.data Sample.render
              Sample.risk_only fresh
              (File "overfishing_risk_index.nc" "0.8") lit_0_8
              (TypeError "float() argument must be a real number"))
    as (Hget & Hraised & _).
  - reflexivity.
  - simpl. left. reflexivity.
  - reflexivity.
  - reflexivity.
  - reflexivity.
  - intros f' [<-|[]] Hname. discriminate.
  - intros f' [<-|[]] Hname. discriminate.
  - split; assumption.
Defined.


(** C10 as stated fails: with no suspects dataset in the registry the
    alerts block of the key metrics shows no placeholder but the all-clear
    card, a count of zero. *)
Lemma all_clear_is_no_placeholder :
  In ("illegal_fishing_suspects", alerts_metric) consumers
  /\ PyDict.contains "illegal_fishing_suspects" (datasets fresh) = false
  /\ alerts_metric fresh
     = (Returned tt,
        shows fresh [Card "Illegal Activity Alerts" [Lit "0"] "ALL CLEAR"])
  /\ forallb placeholder [Card "Illegal Activity Alerts" [Lit "0"] "ALL CLEAR"]
     = false.
Proof.
  split; [right; right; right; left; reflexivity|].
  repeat split.
Qed.

(* ------------------------------------------------------------------ *)
(** ** The further properties at work on the sample library *)

Lemma registry_independent_of_listing_order_witness :
  PyDict.get "overfishing_risk_index"
    (registry (Directory Sample.risk_and_table) fresh)
  = PyDict.get "overfishing_risk_index"
      (registry (Directory (rev Sample.risk_and_table)) fresh).
Proof.
  apply (registry_independent_of_listing_order
           Sample.risk_and_table (rev Sample.risk_and_table) fresh fresh).
  - reflexivity.
  - reflexivity.
  - intros f. simpl. tauto.
  - intros []; discriminate.
Defined.

Lemma same_group_stems_distinct_witness :
  stem (File ".csv" "1 row") = ".csv".
Proof.
  apply (same_group_stems_distinct Tabular
           (File ".csv" "1 row") (File ".csv.csv" "2 rows")).
  - reflexivity.
  - reflexivity.
  - reflexivity.
  - discriminate.
Defined.

Lemma risk_class_monotone_witness :
  risk_class (Finite (9 # 10)%Q) = "CRITICAL".
Proof.
  assert (H : ((7 # 10) <= (9 # 10))%Q) by (unfold Qle; simpl; lia).
  apply (proj1 (risk_class_monotone (7 # 10)%Q (9 # 10)%Q H)).
  reflexivity.
Defined.

Lemma block_failures_come_from_libraries_witness :
  exists k v,
    In (k, v)
       (datasets
          (snd (load_data
                  (Directory [File "overfishing_risk_index.nc" "0.8"]) fresh)))
    /\ lib_raises v (TypeError "float() argument must be a real number").
Proof.
  apply (block_failures_come_from_libraries (Controls 20) render_key_metrics
           (snd (load_data
                   (Directory [File "overfishing_risk_index.nc" "0.8"]) fresh))
           (TypeError "float() argument must be a real number")).
  - left. reflexivity.
  - reflexivity.
Defined.

Lemma explorer_rows_follow_registry_witness :
  (registry (Directory Sample.three_of_a_stem) fresh = []
   /\ snd (explorer_tab (snd (load_data (Directory Sample.three_of_a_stem) fresh)))
      = shows (snd (load_data (Directory Sample.three_of_a_stem) fresh))
          [Warning [Lit "No processed data found. Run the processing pipeline first."]])
  \/ (exists rows,
         Forall2 row_describes
           (registry (Directory Sample.three_of_a_stem) fresh) rows
         /\ snd (explorer_tab
                   (snd (load_data (Directory Sample.three_of_a_stem) fresh)))
            = shows (snd (load_data (Directory Sample.three_of_a_stem) fresh))
                [DatasetInfo rows;
                 Markdown "#### Export Options";
                 DownloadButton "Download Risk Data (NetCDF)"
                   "medguard_risk_index.nc";
                 DownloadButton "Download MPA Recommendations (GeoJSON)"
                   "recommended_mpas.geojson";
                 DownloadButton "Download Full Report (PDF)"
                   "medguard_full_report.pdf"]).
Proof.
  apply (explorer_rows_follow_registry
           (Directory Sample.three_of_a_stem) fresh
           (snd (load_data (Directory Sample.three_of_a_stem) fresh))).
  - reflexivity.
  - reflexivity.
Defined.

Lemma nothing_loaded_dashboard_witness :
  registry (Directory Sample.both_broken) fresh = []
  /\ fst (run (Controls 20)
            (snd (load_data (Directory Sample.both_broken) fresh)))
     = Raised (AttributeError "create_connectivity_network")
  /\ page (snd (run (Controls 20)
                  (snd (load_data (Directory Sample.both_broken) fresh))))
     = page fresh ++ empty_dashboard.
Proof.
  destruct (nothing_loaded_dashboard Sample.both_broken (Controls 20) fresh)
    as (Hempty & _ & Hraised & Hpage & _).
  - reflexivity.
  - split; [exact Hempty|]. split; [exact Hraised | exact Hpage].
Defined.

Lemma failing_risk_card_stops_run_witness :
  run (Controls 20)
    (snd (load_data
            (Directory [File "overfishing_risk_index.nc" "0.8";
                        File "illegal_fishing_suspects.csv" "3 rows"])
            fresh))
  = (Raised (TypeError "float() argument must be a real number"),
     shows
       (snd (load_data
               (Directory [File "overfishing_risk_index.nc" "0.8";
                           File "illegal_fishing_suspects.csv" "3 rows"])
               fresh))
       [Markdown "### Real-Time System Health"]).
Proof.
  apply (@failing_risk_card_stops_run Sample.data Sample.render (Controls 20)
           (snd (load_data
                   (Directory [File "overfishing_risk_index.nc" "0.8";
                               File "illegal_fishing_suspects.csv" "3 rows"])
                   fresh))
           (@Dataset_ Sample.data lit_0_8)).
  - reflexivity.
  - reflexivity.
Defined.
